(** * The MCP integration tool ([src/mastra/tools/mcpTool.ts])

    A shallow embedding of [mcpTool.execute], the six-way action dispatcher
    that lists and runs the tools, resources and prompts of a remote MCP
    client, and of [perplexityTool.execute], the research tool beside it,
    followed by the properties its specification states about the
    dispatcher and by further properties of both tools.

    Conventions of the embedding.
    - A JavaScript string is a [string]; one character stands for one
      UTF-16 code unit, so [String.length] is [.length].
    - A JavaScript object used as a map (the result of [getTools],
      [getResources], [prompts.list]) is the list of its own enumerable
      entries in the order [Object.entries] yields them; keys are distinct
      in a real object.
    - A number of the request is a [JS.number]: a finite value (a rational,
      as every finite double is one), an infinity or NaN.  The numbers inside
      plain data are integral ([Z]).
    - [await]ed calls on the client are recorded in a trace of events, and a
      thrown [Error] carries its message together with the [throw] site that
      created it (the error kinds of the specification; a [catch] block that
      re-throws with a longer message keeps the site).
    - The logger is optional in the source ([logger?.info]) and is left
      out. *)

From Stdlib Require Import String Ascii List ZArith Lia Bool.
From Stdlib Require Import Decimal DecimalString.
From Stdlib Require Import QArith_base.
Close Scope Q_scope.
Import ListNotations.
Local Open Scope list_scope.
Local Open Scope string_scope.

(* ------------------------------------------------------------------ *)
(** * JavaScript primitives used by the tool *)
(* ------------------------------------------------------------------ *)

Module JS.

(** [!s] for a string: only the empty string is falsy. *)
Definition falsy (s : string) : bool :=
  match s with EmptyString => true | String _ _ => false end.

Definition truthy (s : string) : bool := negb (falsy s).

(** Truthiness of an optional string property ([undefined] is falsy). *)
Definition truthy_opt (o : option string) : bool :=
  match o with Some s => truthy s | None => false end.

(** [o || d] where [o] is an optional string property. *)
Definition or_else (o : option string) (d : string) : string :=
  match o with
  | Some s => if truthy s then s else d
  | None => d
  end.

(** [`${o}`] for an optional string property. *)
Definition template (o : option string) : string :=
  match o with Some s => s | None => "undefined" end.

(** [s.split(sep)[0]]: the characters before the first [sep]. *)
Fixpoint split_head (sep : ascii) (s : string) : string :=
  match s with
  | EmptyString => EmptyString
  | String ch rest =>
      if Ascii.eqb ch sep then EmptyString
      else String ch (split_head sep rest)
  end.

(** [l.join(sep)]. *)
Definition join (sep : string) (l : list string) : string :=
  String.concat sep l.

(** [s.includes(sub)]. *)
Fixpoint includes (s sub : string) : bool :=
  if String.prefix sub s then true
  else match s with
       | EmptyString => false
       | String _ rest => includes rest sub
       end.

(** The first [n] code units of [s] (all of [s] when it is shorter). *)
Fixpoint take (n : nat) (s : string) : string :=
  match n, s with
  | O, _ => EmptyString
  | S _, EmptyString => EmptyString
  | S n', String ch rest => String ch (take n' rest)
  end.

(** A JavaScript number: a finite value (every finite double is a
    rational), an infinity, or NaN. *)
Inductive number : Type :=
| Finite (q : Q)
| PosInfinity
| NegInfinity
| NaN.

(** Truthiness of a number: zero and NaN are falsy. *)
Definition truthy_number (n : number) : bool :=
  match n with
  | Finite q => negb (Qeq_bool q 0)
  | PosInfinity | NegInfinity => true
  | NaN => false
  end.

(** [len > n] where [len] is the length of a string. *)
Definition length_gt (len : nat) (n : number) : bool :=
  match n with
  | Finite q => negb (Qle_bool (inject_Z (Z.of_nat len)) q)
  | PosInfinity => false
  | NegInfinity => true
  | NaN => false
  end.

(** The index [substring] makes of a number for a string of length [len]:
    the number is truncated towards zero (NaN counts as 0) and clamped to
    [0 .. len]. *)
Definition clamp_index (len : nat) (n : number) : nat :=
  match n with
  | Finite q =>
      Z.to_nat (Z.min (Z.max (Z.quot (Qnum q) (Zpos (Qden q))) 0)
                  (Z.of_nat len))
  | PosInfinity => len
  | NegInfinity | NaN => 0
  end.

(** [s.substring(0, finish)]. *)
Definition substring0 (s : string) (finish : number) : string :=
  take (clamp_index (String.length s) finish) s.

(** [`${n}`] for a length. *)
Definition of_nat (n : nat) : string :=
  NilZero.string_of_uint (Nat.to_uint n).

End JS.

(* ------------------------------------------------------------------ *)
(** * Data *)
(* ------------------------------------------------------------------ *)

(** Plain data travelling through the tool untouched: parsed arguments,
    schemas, tool results, the [data] field of a read result. *)
#[warnings="-register-all"] Inductive json : Type :=
| JNull
| JBool (b : bool)
| JNumber (n : Z)
| JString (s : string)
| JArray (items : list json)
| JObject (fields : list (string * json)).

(** Truthiness of a data value. *)
Definition json_truthy (v : json) : bool :=
  match v with
  | JNull => false
  | JBool b => b
  | JNumber n => negb (Z.eqb n 0)
  | JString s => JS.truthy s
  | JArray _ | JObject _ => true
  end.

(** A promise of the remote client: rejected with an error message, or
    resolved with a value. *)
Inductive remote (A : Type) : Type :=
| Rejects (msg : string)
| Resolves (a : A).
Arguments Rejects {A} msg.
Arguments Resolves {A} a.

(** The [execute] property of a map entry. *)
Inductive execute_field : Type :=
| ExecuteAbsent
| ExecuteNotCallable
| ExecuteFunction (run : json -> remote json).

(** The properties of a tool object the dispatcher reads. *)
Record tool_object : Type := {
  tool_id : option string;
  tool_description : option string;
  tool_inputSchema : option json;
  tool_outputSchema : option json;
  tool_execute : execute_field
}.

Inductive primitive : Type :=
| PBoolean (b : bool)
| PNumber (n : Z)
| PString (s : string).

(** A value of the flat map returned by [getTools]: the map is typed
    [any] on the dispatcher's side, which guards against entries that are
    not tool objects. *)
Inductive tool_value : Type :=
| TUndefined
| TNull
| TPrimitive (p : primitive)
| TObject (o : tool_object)
| TFunction (o : tool_object).

Definition tool_map : Type := list (string * tool_value).

Record resource : Type := {
  res_uri : string;
  res_name : string;
  res_description : option string;
  res_mimeType : option string
}.

Definition resources_map : Type := list (string * list resource).

(** One element of [result.contents]. *)
Record content_part : Type := {
  part_text : option string;
  part_blob : option string
}.

(** The [contents] property of a read result. *)
Inductive contents_field : Type :=
| ContentsAbsent
| ContentsNotArray
| ContentsArray (items : list content_part).

Record result_object : Type := {
  r_contents : contents_field;
  r_text : option string;
  r_data : option json
}.

(** What [resources.read] resolves with. *)
Inductive read_result : Type :=
| ResultNullish
| ResultString (s : string)
| ResultObject (o : result_object).

Record prompt : Type := {
  prompt_name_of : string;
  prompt_description : option string;
  prompt_arguments_of : option (list json)
}.

(** Per server, the prompts listed; [None] when the value is not an array. *)
Definition prompts_map : Type := list (string * option (list prompt)).

(** [mcp.prompts]: [prompts_list] is [None] when [prompts.list] is not a
    function. *)
Record prompts_namespace : Type := {
  prompts_list : option (remote prompts_map);
  prompts_get_callable : bool
}.

(** The remote capability client as the dispatcher observes it during one
    request. *)
Record client : Type := {
  client_getTools : remote tool_map;
  client_getResources : remote resources_map;
  client_resources_read : string -> string -> remote read_result;
  client_prompts : option prompts_namespace
}.

(** ** Requests *)

Inductive action : Type :=
| list_tools
| execute_tool
| list_resources
| get_resource
| list_prompts
| get_prompt.

Definition action_name (a : action) : string :=
  match a with
  | list_tools => "list_tools"
  | execute_tool => "execute_tool"
  | list_resources => "list_resources"
  | get_resource => "get_resource"
  | list_prompts => "list_prompts"
  | get_prompt => "get_prompt"
  end.

(** The [context] of the input schema. *)
Record context : Type := {
  ctx_action : action;
  server_name : option string;
  tool_name : option string;
  tool_arguments : option string;
  resource_uri : option string;
  prompt_name : option string;
  prompt_arguments : option string;
  max_bytes : option JS.number;
  as_text : option bool
}.

(** ** Results *)

Record tool_descriptor : Type := {
  td_fullKey : string;
  td_id : string;
  td_server : string;
  td_description : string;
  td_inputSchema : option json;
  td_outputSchema : option json
}.

Record resource_descriptor : Type := {
  rd_server : string;
  rd_uri : string;
  rd_name : string;
  rd_description : string;
  rd_mimeType : option string
}.

Record resource_content : Type := {
  rc_uri : string;
  rc_server : string;
  rc_name : string;
  rc_description : option string;
  rc_mimeType : option string;
  rc_content : string;
  rc_isBinary : bool;
  rc_truncated : bool;
  rc_size : nat
}.

Record prompt_descriptor : Type := {
  pd_server : string;
  pd_name : string;
  pd_description : string;
  pd_arguments : list json
}.

Record prompt_template : Type := {
  pt_name : string;
  pt_server : string;
  pt_description : option string;
  pt_arguments : list json;
  pt_providedArguments : option json;
  pt_note : string;
  pt_instructions : option string
}.

(** The [data] field of the envelope, one shape per branch. *)
Inductive data : Type :=
| DataTools (tools : list tool_descriptor)
| DataExecuted (name fullKey : string) (result : json)
| DataResources (resources : list resource_descriptor)
| DataResource (r : resource_content)
| DataPrompts (prompts : list prompt_descriptor)
| DataPrompt (p : prompt_template).

Record envelope : Type := {
  env_action : string;
  env_data : data;
  env_message : string
}.

(* ------------------------------------------------------------------ *)
(** * Effects: awaited calls and exceptions *)
(* ------------------------------------------------------------------ *)

(** The calls the dispatcher makes on the client and on a resolved tool. *)
Inductive event : Type :=
| CallGetTools
| CallToolExecute (fullKey : string) (arguments : json)
| CallGetResources
| CallResourcesRead (server uri : string)
| CallPromptsList.

(** Where an error was thrown. *)
Inductive failure : Type :=
| MissingParameter
| ToolNotFound
| ToolNotExecutable
| InvalidArguments
| ToolExecutionFailed
| ResourceNotFound
| PromptsUnsupported
| PromptNotFound
| RemoteFailure
| TypeError.

Record error : Type := {
  err_site : failure;
  err_message : string
}.

Inductive result (A : Type) : Type :=
| Returned (a : A)
| Thrown (e : error).
Arguments Returned {A} a.
Arguments Thrown {A} e.

(** A computation appends the calls it makes to the trace it is given and
    returns or throws. *)
Definition M (A : Type) : Type := list event -> result A * list event.

Definition ret {A} (a : A) : M A := fun tr => (Returned a, tr).

Definition bind {A B} (m : M A) (k : A -> M B) : M B :=
  fun tr =>
    match m tr with
    | (Returned a, tr') => k a tr'
    | (Thrown e, tr') => (Thrown e, tr')
    end.

Definition throw {A} (site : failure) (msg : string) : M A :=
  fun tr => (Thrown {| err_site := site; err_message := msg |}, tr).

(** [try { m } catch (error) { h error }]. *)
Definition try_catch {A} (m : M A) (h : error -> M A) : M A :=
  fun tr =>
    match m tr with
    | (Returned a, tr') => (Returned a, tr')
    | (Thrown e, tr') => h e tr'
    end.

(** [await call]: the call is made, then its promise settles; a rejection
    is an exception raised at [site]. *)
Definition await {A} (call : event) (site : failure) (p : remote A) : M A :=
  fun tr =>
    (match p with
     | Rejects msg => Thrown {| err_site := site; err_message := msg |}
     | Resolves a => Returned a
     end, tr ++ [call])%list.

(** [catch (error) { throw new Error(prefix + error.message) }]. *)
Definition rethrow {A} (prefix : string) (e : error) : M A :=
  fun tr =>
    (Thrown {| err_site := err_site e;
               err_message := prefix ++ err_message e |}, tr).

(** [if (!field) throw new Error(msg)]. *)
Definition required (field : option string) (msg : string) : M string :=
  match field with
  | Some s => if JS.falsy s then throw MissingParameter msg else ret s
  | None => throw MissingParameter msg
  end.

Declare Scope js_scope.
Delimit Scope js_scope with js.
Notation "x <- m ;; k" := (bind m (fun x => k))
  (at level 61, m at next level, right associativity) : js_scope.
Local Open Scope js_scope.

(** The dispatcher run from an empty trace. *)
Definition run {A} (m : M A) : result A * list event := m [].

(* ------------------------------------------------------------------ *)
(** * The dispatcher *)
(* ------------------------------------------------------------------ *)

Section Dispatcher.

(** [JSON.parse]: [None] when it throws a [SyntaxError]. *)
Variable JSON_parse : string -> option json.

(** [JSON.stringify(value, null, space)]. *)
Variable JSON_stringify : json -> nat -> string.

(** The module-level client [mcp]. *)
Variable mcp : client.

(** ** Reading entries of the flat tool map *)

(** [tool?.id]. *)
Definition id_of (tool : tool_value) : option string :=
  match tool with
  | TObject o | TFunction o => tool_id o
  | TUndefined | TNull | TPrimitive _ => None
  end.

(** [tool?.execute]. *)
Definition execute_of (tool : tool_value) : execute_field :=
  match tool with
  | TObject o | TFunction o => tool_execute o
  | TUndefined | TNull | TPrimitive _ => ExecuteAbsent
  end.

(** [typeof f === 'function']. *)
Definition is_function (f : execute_field) : bool :=
  match f with
  | ExecuteFunction _ => true
  | ExecuteAbsent | ExecuteNotCallable => false
  end.

(** [tool?.id === name]. *)
Definition id_is (tool : tool_value) (name : string) : bool :=
  match id_of tool with
  | Some i => String.eqb i name
  | None => false
  end.

(** [Object.keys(toolMap)]. *)
Definition keys {A} (m : list (string * A)) : list string := map fst m.

(** [toolMap[k]]. *)
Fixpoint lookup {A} (m : list (string * A)) (k : string) : option A :=
  match m with
  | [] => None
  | (k', v) :: rest => if String.eqb k' k then Some v else lookup rest k
  end.

(** ** [case "list_tools"] *)

(** The callback of [Object.entries(toolMap).map]: a descriptor for an
    actual tool object, [null] otherwise. *)
Definition describe_tool (entry : string * tool_value)
  : option tool_descriptor :=
  let (fullKey, tool) := entry in
  match tool with
  | TObject o =>
      if is_function (tool_execute o) then
        Some {| td_fullKey := fullKey;
                td_id := JS.or_else (tool_id o) fullKey;
                td_server := JS.or_else
                               (Some (JS.split_head "_"%char fullKey)) "Rube";
                td_description := JS.or_else (tool_description o)
                                    "No description available";
                td_inputSchema := tool_inputSchema o;
                td_outputSchema := tool_outputSchema o |}
      else None
  | TUndefined | TNull | TPrimitive _ | TFunction _ => None
  end.

(** [.filter(Boolean)] on the mapped list: [null]s are dropped. *)
Fixpoint filter_Boolean {A} (l : list (option A)) : list A :=
  match l with
  | [] => []
  | Some a :: rest => a :: filter_Boolean rest
  | None :: rest => filter_Boolean rest
  end.

Definition toolsList (toolMap : tool_map) : list tool_descriptor :=
  filter_Boolean (map describe_tool toolMap).

Definition case_list_tools : M envelope :=
  try_catch
    (toolMap <- await CallGetTools RemoteFailure (client_getTools mcp) ;;
     let tools := toolsList toolMap in
     ret {| env_action := action_name list_tools;
            env_data := DataTools tools;
            env_message := "Found " ++ JS.of_nat (List.length tools)
                           ++ " available MCP tools" |})
    (fun _ =>
       ret {| env_action := action_name list_tools;
              env_data := DataTools [];
              env_message := "No MCP servers configured. Tools will be available once MCP servers are set up." |}).

(** ** [case "execute_tool"] *)

(** The predicate of [Object.entries(toolMap).find]. *)
Definition matches_tool (name : string) (entry : string * tool_value)
  : bool :=
  let (key, tool) := entry in
  String.eqb key name || id_is tool name.

(** The keys listed in the not-found message. *)
Definition available_tools (toolMap : tool_map) : list string :=
  filter
    (fun k => match lookup toolMap k with
              | Some tool => is_function (execute_of tool)
              | None => false
              end)
    (keys toolMap).

(** Parsing [tool_arguments] (and [prompt_arguments]). *)
Definition parse_arguments (field : string) (text : option string)
  : M json :=
  match text with
  | Some t =>
      if JS.truthy t then
        match JSON_parse t with
        | Some v => ret v
        | None =>
            throw InvalidArguments
              ("Invalid JSON format for " ++ field ++ ": " ++ t)
        end
      else ret (JObject [])
  | None => ret (JObject [])
  end.

Definition case_execute_tool (ctx : context) : M envelope :=
  name <- required (tool_name ctx)
            "Tool name is required for execute_tool action" ;;
  try_catch
    (toolMap <- await CallGetTools RemoteFailure (client_getTools mcp) ;;
     match find (matches_tool name) toolMap with
     | None =>
         throw ToolNotFound
           ("Tool '" ++ name ++ "' not found. Available tools: "
            ++ JS.join ", " (available_tools toolMap))
     | Some (fullKey, foundTool) =>
         match execute_of foundTool with
         | ExecuteFunction run_tool =>
             parsedArguments <-
               parse_arguments "tool_arguments" (tool_arguments ctx) ;;
             result <- await (CallToolExecute fullKey parsedArguments)
                         ToolExecutionFailed (run_tool parsedArguments) ;;
             let shown := JS.or_else (id_of foundTool) fullKey in
             ret {| env_action := action_name execute_tool;
                    env_data := DataExecuted shown fullKey result;
                    env_message := "Successfully executed tool '"
                                   ++ shown ++ "'" |}
         | ExecuteAbsent | ExecuteNotCallable =>
             throw ToolNotExecutable
               ("Tool '" ++ fullKey
                ++ "' is not executable (missing execute function)")
         end
     end)
    (rethrow "Failed to execute MCP tool: ").

(** ** [case "list_resources"] *)

Definition resourcesList (resources : resources_map)
  : list resource_descriptor :=
  flat_map
    (fun entry : string * list resource =>
       let (serverName, serverResources) := entry in
       map (fun r =>
              {| rd_server := serverName;
                 rd_uri := res_uri r;
                 rd_name := res_name r;
                 rd_description := JS.or_else (res_description r)
                                     "No description available";
                 rd_mimeType := res_mimeType r |})
           serverResources)
    resources.

Definition case_list_resources : M envelope :=
  try_catch
    (resources <- await CallGetResources RemoteFailure
                    (client_getResources mcp) ;;
     let listed := resourcesList resources in
     ret {| env_action := action_name list_resources;
            env_data := DataResources listed;
            env_message := "Found " ++ JS.of_nat (List.length listed)
                           ++ " available MCP resources across "
                           ++ JS.of_nat (List.length (keys resources))
                           ++ " servers" |})
    (fun _ =>
       ret {| env_action := action_name list_resources;
              env_data := DataResources [];
              env_message := "No MCP servers configured or no resources available." |}).

(** ** [case "get_resource"] *)

(** The [for ... of Object.entries(resources)] loop: the values of
    [targetServer] and [resourceInfo] when it ends ([None] is [null]). *)
Fixpoint scan_servers (resources : resources_map) (uri : string)
  : option string * option resource :=
  match resources with
  | [] => (None, None)
  | (serverName, serverResources) :: rest =>
      match find (fun r => String.eqb (res_uri r) uri) serverResources with
      | Some found => (Some serverName, Some found)
      | None => scan_servers rest uri
      end
  end.

(** The [for ... of result.contents] loop, started with the text
    accumulated so far: the final [content] and [isBinary]. *)
Fixpoint read_contents (items : list content_part) (content : string)
  : string * bool :=
  match items with
  | [] => (content, false)
  | item :: rest =>
      if JS.truthy_opt (part_text item) then
        read_contents rest (content ++ JS.or_else (part_text item) EmptyString)
      else if JS.truthy_opt (part_blob item) then
        (JS.or_else (part_blob item) EmptyString, true)
      else read_contents rest content
  end.

(** The [else if] chain taken when [result.contents] is not an array and
    [result] is an object. *)
Definition read_fields (o : result_object) : string :=
  if JS.truthy_opt (r_text o) then JS.or_else (r_text o) EmptyString
  else match r_data o with
       | Some d =>
           if json_truthy d then
             match d with
             | JString s => s
             | _ => JSON_stringify d 2
             end
           else EmptyString
       | None => EmptyString
       end.

(** [content] and [isBinary] after the extraction. *)
Definition extract_content (res : read_result) : string * bool :=
  match res with
  | ResultObject o =>
      match r_contents o with
      | ContentsArray items => read_contents items EmptyString
      | ContentsAbsent | ContentsNotArray => (read_fields o, false)
      end
  | ResultString s => (s, false)
  | ResultNullish => (EmptyString, false)
  end.

(** [max_bytes || 100000]. *)
Definition maxSize (max_bytes : option JS.number) : JS.number :=
  match max_bytes with
  | Some n => if JS.truthy_number n then n else JS.Finite 100000
  | None => JS.Finite 100000
  end.

(** The truncation step: the final [content] and [truncated]. *)
Definition truncate (limit : JS.number) (content : string) (isBinary : bool)
  : string * bool :=
  if negb isBinary && JS.length_gt (String.length content) limit
  then (JS.substring0 content limit, true)
  else (content, false).

Definition case_get_resource (ctx : context) : M envelope :=
  uri <- required (resource_uri ctx)
           "Resource URI is required for get_resource action" ;;
  try_catch
    (resources <- await CallGetResources RemoteFailure
                    (client_getResources mcp) ;;
     match scan_servers resources uri with
     | (Some targetServer, Some resourceInfo) =>
         if JS.truthy targetServer then
           res <- await (CallResourcesRead targetServer uri) RemoteFailure
                    (client_resources_read mcp targetServer uri) ;;
           let (content0, isBinary) := extract_content res in
           let (content, truncated) :=
             truncate (maxSize (max_bytes ctx)) content0 isBinary in
           ret {| env_action := action_name get_resource;
                  env_data :=
                    DataResource
                      {| rc_uri := uri;
                         rc_server := targetServer;
                         rc_name := res_name resourceInfo;
                         rc_description := res_description resourceInfo;
                         rc_mimeType := res_mimeType resourceInfo;
                         rc_content := content;
                         rc_isBinary := isBinary;
                         rc_truncated := truncated;
                         rc_size := String.length content |};
                  env_message :=
                    "Successfully retrieved resource '"
                    ++ res_name resourceInfo ++ "' from server '"
                    ++ targetServer ++ "'"
                    ++ (if truncated then " (truncated)"
                        else EmptyString) |}
         else
           throw ResourceNotFound
             ("Resource '" ++ uri
              ++ "' not found. Use list_resources to see available resources.")
     | _ =>
         throw ResourceNotFound
           ("Resource '" ++ uri
            ++ "' not found. Use list_resources to see available resources.")
     end)
    (rethrow "Failed to get MCP resource: ").

(** ** [case "list_prompts"] *)

Definition unsupported_message : string :=
  "Prompts are not supported by the current MCP server configuration.".

Definition promptsList (prompts : prompts_map) : list prompt_descriptor :=
  flat_map
    (fun entry : string * option (list prompt) =>
       let (serverName, serverPrompts) := entry in
       map (fun p =>
              {| pd_server := serverName;
                 pd_name := prompt_name_of p;
                 pd_description := JS.or_else (prompt_description p)
                                     "No description available";
                 pd_arguments := match prompt_arguments_of p with
                                 | Some args => args
                                 | None => []
                                 end |})
           (match serverPrompts with Some l => l | None => [] end))
    prompts.

Definition case_list_prompts : M envelope :=
  let unsupported :=
    {| env_action := action_name list_prompts;
       env_data := DataPrompts [];
       env_message := unsupported_message |} in
  try_catch
    (match client_prompts mcp with
     | None => ret unsupported
     | Some ns =>
         match prompts_list ns with
         | None => ret unsupported
         | Some listing =>
             prompts <- await CallPromptsList RemoteFailure listing ;;
             let listed := promptsList prompts in
             ret {| env_action := action_name list_prompts;
                    env_data := DataPrompts listed;
                    env_message := "Found "
                                   ++ JS.of_nat (List.length listed)
                                   ++ " available MCP prompts" |}
         end
     end)
    (fun _ =>
       ret {| env_action := action_name list_prompts;
              env_data := DataPrompts [];
              env_message := "No prompts available from MCP servers." |}).

(** ** [case "get_prompt"] *)

(** The [for ... of Object.entries(prompts)] loop: the server and the
    prompt found, if any. *)
Fixpoint find_prompt (prompts : prompts_map) (name : string)
  : option (string * prompt) :=
  match prompts with
  | [] => None
  | (server, serverPrompts) :: rest =>
      match serverPrompts with
      | Some l =>
          match find (fun p => String.eqb (prompt_name_of p) name) l with
          | Some found => Some (server, found)
          | None => find_prompt rest name
          end
      | None => find_prompt rest name
      end
  end.

(** [await mcp.prompts.list()] where [prompts.list] may not exist. *)
Definition call_prompts_list : M prompts_map :=
  match client_prompts mcp with
  | Some ns =>
      match prompts_list ns with
      | Some listing => await CallPromptsList RemoteFailure listing
      | None => throw TypeError "mcpWithPrompts.prompts.list is not a function"
      end
  | None =>
      throw TypeError "Cannot read properties of undefined (reading 'list')"
  end.

Definition arguments_or_empty (p : prompt) : list json :=
  match prompt_arguments_of p with Some args => args | None => [] end.

Definition instructions (p : prompt) : string :=
  "To use this prompt: " ++ JS.template (prompt_description p) ++ ". "
  ++ match prompt_arguments_of p with
     | Some (first :: others) =>
         "Required arguments: "
         ++ JSON_stringify (JArray (first :: others)) 0
     | Some [] | None => "No arguments required."
     end.

Definition case_get_prompt (ctx : context) : M envelope :=
  name <- required (prompt_name ctx)
            "Prompt name is required for get_prompt action" ;;
  try_catch
    (match client_prompts mcp with
     | Some ns =>
         if prompts_get_callable ns then
           parsedArgs <-
             parse_arguments "prompt_arguments" (prompt_arguments ctx) ;;
           prompts <- call_prompts_list ;;
           match find_prompt prompts name with
           | Some (serverName, promptInfo) =>
               ret {| env_action := action_name get_prompt;
                      env_data :=
                        DataPrompt
                          {| pt_name := name;
                             pt_server := serverName;
                             pt_description := prompt_description promptInfo;
                             pt_arguments := arguments_or_empty promptInfo;
                             pt_providedArguments := Some parsedArgs;
                             pt_note := "Direct prompt execution is currently limited. Use the prompt description and arguments to construct your request manually.";
                             pt_instructions :=
                               Some (instructions promptInfo) |};
                      env_message :=
                        "Retrieved prompt template '" ++ name
                        ++ "' (execution via API currently limited)" |}
           | None =>
               throw PromptNotFound
                 ("Prompt '" ++ name
                  ++ "' not found. Use list_prompts to see available prompts.")
           end
         else throw PromptsUnsupported unsupported_message
     | None => throw PromptsUnsupported unsupported_message
     end)
    (fun e =>
       let errorMessage := err_message e in
       fallback <-
         (if JS.includes errorMessage "Server configuration not found" then
            try_catch
              (prompts <- call_prompts_list ;;
               match find_prompt prompts name with
               | Some (server, found) =>
                   ret (Some
                     {| env_action := action_name get_prompt;
                        env_data :=
                          DataPrompt
                            {| pt_name := name;
                               pt_server := server;
                               pt_description := prompt_description found;
                               pt_arguments := arguments_or_empty found;
                               pt_providedArguments := None;
                               pt_note := "The MCP client library has a known limitation with the prompts.get API. Use list_prompts to see available prompts and their descriptions.";
                               pt_instructions := None |};
                        env_message :=
                          "Prompt template '" ++ name
                          ++ "' found but direct execution is not available due to API limitations" |})
               | None => ret None
               end)
              (fun _ => ret None)
          else ret None) ;;
       match fallback with
       | Some env => ret env
       | None => rethrow "Failed to get MCP prompt: " e
       end).

(** ** [execute] *)

Definition execute (ctx : context) : M envelope :=
  try_catch
    (match ctx_action ctx with
     | list_tools => case_list_tools
     | execute_tool => case_execute_tool ctx
     | list_resources => case_list_resources
     | get_resource => case_get_resource ctx
     | list_prompts => case_list_prompts
     | get_prompt => case_get_prompt ctx
     end)
    (rethrow "MCP operation failed: ").

End Dispatcher.

(* ------------------------------------------------------------------ *)
(** * The Perplexity research tool *)
(* ------------------------------------------------------------------ *)

(** The second tool of the source, [perplexityTool.execute]: one POST to
    the chat-completion endpoint.  The promise it returns is a [remote];
    the requests handed to [fetch] are collected beside it. *)
Module Perplexity.

Definition PERPLEXITY_API_URL : string :=
  "https://api.perplexity.ai/chat/completions".

Record chat_message : Type := {
  role : string;
  content : string
}.

(** The object given to [JSON.stringify] for the request body. *)
Record request_body : Type := {
  body_model : string;
  body_messages : list chat_message;
  body_max_tokens : Z;
  body_temperature : Decimal.decimal;
  body_return_citations : bool;
  body_return_images : bool
}.

Record http_request : Type := {
  req_url : string;
  req_method : string;
  req_authorization : string;
  req_content_type : string;
  req_body : request_body
}.

(** The parts of the completion the tool reads:
    [data.choices?.[0]?.message?.content] and [data.citations]. *)
Record completion_message : Type := {
  message_content : option string
}.

Record choice : Type := {
  choice_message : option completion_message
}.

Record completion : Type := {
  choices : option (list choice);
  citations : option (list string)
}.

Record http_response : Type := {
  response_ok : bool;
  response_status : nat;
  response_text : remote string;
  response_json : remote completion
}.

Record input : Type := {
  query : string;
  model : string
}.

Record output : Type := {
  answer : string;
  sources : list string;
  model_used : string
}.

(** [data.choices?.[0]?.message?.content]. *)
Definition first_content (data : completion) : option string :=
  match choices data with
  | Some (first :: _) =>
      match choice_message first with
      | Some m => message_content m
      | None => None
      end
  | Some [] | None => None
  end.

Definition build_request (apiKey : string) (inp : input) : http_request :=
  {| req_url := PERPLEXITY_API_URL;
     req_method := "POST";
     req_authorization := "Bearer " ++ apiKey;
     req_content_type := "application/json";
     req_body :=
       {| body_model := model inp;
          body_messages :=
            [ {| role := "system";
                 content := "You are a helpful research assistant. Provide comprehensive, accurate, and well-sourced answers to research questions. Include relevant sources when available." |};
              {| role := "user"; content := query inp |} ];
          body_max_tokens := 1000%Z;
          body_temperature := Decimal.Decimal (Decimal.Pos (Decimal.D0 Decimal.Nil))
                                (Decimal.D2 Decimal.Nil);
          body_return_citations := true;
          body_return_images := false |} |}.

(** The [catch] block of the tool. *)
Definition failed {A} (errorMessage : string) : remote A :=
  Rejects ("Failed to research with Perplexity: " ++ errorMessage).

(** [execute]: [PERPLEXITY_API_KEY] is the environment variable and
    [fetch] the behaviour of the network for a given request. *)
Definition execute (PERPLEXITY_API_KEY : option string)
  (fetch : http_request -> remote http_response) (inp : input)
  : remote output * list http_request :=
  if JS.truthy_opt PERPLEXITY_API_KEY then
    let request :=
      build_request (JS.or_else PERPLEXITY_API_KEY EmptyString) inp in
    match fetch request with
    | Rejects msg => (failed msg, [request])
    | Resolves response =>
        if response_ok response then
          match response_json response with
          | Rejects msg => (failed msg, [request])
          | Resolves data =>
              (Resolves
                 {| answer := JS.or_else (first_content data)
                                "No answer received from Perplexity";
                    sources := match citations data with
                               | Some l => l
                               | None => []
                               end;
                    model_used := model inp |},
               [request])
          end
        else
          match response_text response with
          | Rejects msg => (failed msg, [request])
          | Resolves errorText =>
              (failed ("Perplexity API request failed: "
                       ++ JS.of_nat (response_status response)
                       ++ " - " ++ errorText),
               [request])
          end
    end
  else
    (failed "Perplexity API key not configured. Please set PERPLEXITY_API_KEY environment variable.",
     []).

End Perplexity.

(* ------------------------------------------------------------------ *)
(** * Sample data *)
(* ------------------------------------------------------------------ *)

(** Concrete clients and requests on which the dispatcher is run below. *)
Module Sample.

(** A [JSON.parse] that accepts the text of the empty object only. *)
Definition parse (text : string) : option json :=
  if String.eqb text "{}" then Some (JObject []) else None.

(** A [JSON.stringify] that prints every value the same way. *)
Definition stringify (v : json) (space : nat) : string := "{}".

Definition echo : execute_field :=
  ExecuteFunction (fun arguments => Resolves arguments).

Definition tool (id : option string) (exec : execute_field) : tool_value :=
  TObject {| tool_id := id;
             tool_description := None;
             tool_inputSchema := None;
             tool_outputSchema := None;
             tool_execute := exec |}.

Definition request (a : action) : context :=
  {| ctx_action := a;
     server_name := None;
     tool_name := None;
     tool_arguments := None;
     resource_uri := None;
     prompt_name := None;
     prompt_arguments := None;
     max_bytes := None;
     as_text := None |}.

Definition with_tool (name : string) (arguments : option string) : context :=
  {| ctx_action := execute_tool;
     server_name := None;
     tool_name := Some name;
     tool_arguments := arguments;
     resource_uri := None;
     prompt_name := None;
     prompt_arguments := None;
     max_bytes := None;
     as_text := None |}.

Definition with_resource (uri : string) (limit : option JS.number)
  : context :=
  {| ctx_action := get_resource;
     server_name := None;
     tool_name := None;
     tool_arguments := None;
     resource_uri := Some uri;
     prompt_name := None;
     prompt_arguments := None;
     max_bytes := limit;
     as_text := None |}.

Definition no_read (server uri : string) : remote read_result :=
  Rejects "Resource read is not available".

(** A client whose flat tool map is [tools]. *)
Definition tools_client (tools : tool_map) : client :=
  {| client_getTools := Resolves tools;
     client_getResources := Resolves [];
     client_resources_read := no_read;
     client_prompts := None |}.

(** Two tools; the id of the first is the key of the second. *)
Definition crossed : tool_map :=
  [ ("rube_search", tool (Some "rube_plan") echo);
    ("rube_plan", tool (Some "PLAN")
                    (ExecuteFunction (fun _ => Resolves (JString "planned")))) ].

(** A map with a metadata entry and a tool without [execute]. *)
Definition mixed : tool_map :=
  [ ("rube_search", tool (Some "RUBE_SEARCH_TOOLS") echo);
    ("version", TPrimitive (PString "1.0"));
    ("rube_broken", tool (Some "BROKEN") ExecuteAbsent);
    ("plan", tool None echo) ].

Definition note (uri name : string) : resource :=
  {| res_uri := uri;
     res_name := name;
     res_description := None;
     res_mimeType := Some "text/plain" |}.

Definition text_part (text : string) : content_part :=
  {| part_text := Some text; part_blob := None |}.

Definition blob_part (blob : string) : content_part :=
  {| part_text := None; part_blob := Some blob |}.

Definition parts (items : list content_part) : read_result :=
  ResultObject {| r_contents := ContentsArray items;
                  r_text := None;
                  r_data := None |}.

(** Server [A] lacks [doc://b], server [B] has it; reading it yields
    [res]. *)
Definition two_servers (res : read_result) : client :=
  {| client_getTools := Resolves [];
     client_getResources :=
       Resolves [ ("A", [note "doc://a" "a"]);
                  ("B", [note "doc://b" "b"]) ];
     client_resources_read := fun _ _ => Resolves res;
     client_prompts := None |}.

(** A text of one hundred characters. *)
Definition hundred : string :=
  let ten := "0123456789" in
  ten ++ ten ++ ten ++ ten ++ ten ++ ten ++ ten ++ ten ++ ten ++ ten.

Definition with_prompt (name : string) (arguments : option string) : context :=
{| ctx_action := get_prompt;
   server_name := None;
   tool_name := None;
   tool_arguments := None;
   resource_uri := None;
   prompt_name := Some name;
   prompt_arguments := arguments;
   max_bytes := None;
   as_text := None |}.

Definition summarize : prompt :=
{| prompt_name_of := "summarize";
   prompt_description := Some "Summarize a text";
   prompt_arguments_of := None |}.

(** Server [A] answers with something that is not an array, server [B]
    lists one prompt. *)
Definition listing : prompts_map :=
[ ("A", None); ("B", Some [summarize]) ].

(** A client with a prompts namespace whose [list] resolves with
    [listing]; [get] is callable or not. *)
Definition prompts_client (get_callable : bool) : client :=
{| client_getTools := Resolves [];
   client_getResources := Resolves [];
   client_resources_read := no_read;
   client_prompts := Some {| prompts_list := Some (Resolves listing);
                             prompts_get_callable := get_callable |} |}.




End Sample.

(* ------------------------------------------------------------------ *)
(** * Notions of the specification *)
(* ------------------------------------------------------------------ *)

(** The entry's value is a non-null object exposing a callable [execute]
    operation. *)
Definition executable_entry (entry : string * tool_value) : bool :=
  match snd entry with
  | TObject o => is_function (tool_execute o)
  | TUndefined | TNull | TPrimitive _ | TFunction _ => false
  end.

(** The value stored under a key exposes a callable [execute] operation. *)
Definition exposes_execute (toolMap : tool_map) (key : string) : Prop :=
  exists tool,
    lookup toolMap key = Some tool /\ is_function (execute_of tool) = true.

(** The prompts capability: a [prompts] namespace with a callable [list]. *)
Definition prompts_capability (mcp : client) : bool :=
  match client_prompts mcp with
  | Some ns =>
      match prompts_list ns with Some _ => true | None => false end
  | None => false
  end.

(** A part of [result.contents] carries text when its [text] is truthy;
    it carries binary content instead when it has no such text and its
    [blob] is truthy. *)
Definition carries_text (item : content_part) : bool :=
  JS.truthy_opt (part_text item).

Definition carries_binary (item : content_part) : bool :=
  negb (carries_text item) && JS.truthy_opt (part_blob item).

(** The texts of the text-bearing parts, concatenated in order. *)
Fixpoint concat_texts (items : list content_part) : string :=
  match items with
  | [] => EmptyString
  | item :: rest =>
      if carries_text item
      then (JS.or_else (part_text item) EmptyString ++ concat_texts rest)%string
      else concat_texts rest
  end.

(** Extraction as the specification words it: a part carries text when
    it has a text field and carries binary content when it has a blob field
    instead; of an object, the text field is used when there is one, then
    the data field. *)
Fixpoint read_contents_as_worded (items : list content_part)
  (content : string) : string * bool :=
  match items with
  | [] => (content, false)
  | item :: rest =>
      match part_text item, part_blob item with
      | Some text, _ => read_contents_as_worded rest (content ++ text)
      | None, Some blob => (blob, true)
      | None, None => read_contents_as_worded rest content
      end
  end.

Definition extract_as_worded (stringify : json -> nat -> string)
  (res : read_result) : string * bool :=
  match res with
  | ResultObject o =>
      match r_contents o with
      | ContentsArray items => read_contents_as_worded items EmptyString
      | ContentsAbsent | ContentsNotArray =>
          (match r_text o with
           | Some text => text
           | None =>
               match r_data o with
               | Some (JString s) => s
               | Some d => stringify d 2
               | None => EmptyString
               end
           end, false)
      end
  | ResultString s => (s, false)
  | ResultNullish => (EmptyString, false)
  end.

(** The server-by-server scan has reached [server], whose list holds [r]
    as its first resource with the requested URI, after servers that do not
    hold the URI at all. *)
Definition first_holder (resources : resources_map) (uri : string)
  (server : string) (r : resource) : Prop :=
  exists before list_before list_after after,
    resources = (before ++ (server, list_before ++ r :: list_after) :: after)%list
    /\ (forall s l r', In (s, l) before -> In r' l -> res_uri r' <> uri)
    /\ (forall r', In r' list_before -> res_uri r' <> uri)
    /\ res_uri r = uri.

(** The cap on textual content: [max_bytes] when it is supplied as a
    positive integer, the default when it is absent or zero. *)
Inductive byte_cap : option JS.number -> Z -> Prop :=
| cap_default : byte_cap None 100000%Z
| cap_zero (q : Q) : Qeq q 0 -> byte_cap (Some (JS.Finite q)) 100000%Z
| cap_supplied (q : Q) (n : Z) :
    Qeq q (inject_Z n) -> (0 < n)%Z -> byte_cap (Some (JS.Finite q)) n.

(** The number is below zero. *)
Definition negative_number (n : JS.number) : bool :=
  match n with
  | JS.Finite q => Z.ltb (Qnum q) 0
  | JS.NegInfinity => true
  | JS.PosInfinity | JS.NaN => false
  end.

(** The cap as the specification words it: [max_bytes] when supplied,
    otherwise the default. *)
Definition cap_as_worded (max_bytes : option JS.number) : JS.number :=
  match max_bytes with
  | Some n => n
  | None => JS.Finite 100000
  end.

(** Resolution as the specification words it: exact key equality against
    all entries first, the declared [id] only when no key matches. *)
Definition resolve_key_first (toolMap : tool_map) (name : string)
  : option (string * tool_value) :=
  match find (fun entry => String.eqb (fst entry) name) toolMap with
  | Some entry => Some entry
  | None => find (fun entry => id_is (snd entry) name) toolMap
  end.

(** What ExecuteTool reports once the resolved tool's [execute] has
    settled. *)
Definition executed (fullKey : string) (tool : tool_value)
  (settled : remote json) : result envelope :=
  match settled with
  | Resolves r =>
      Returned
        {| env_action := "execute_tool";
           env_data := DataExecuted (JS.or_else (id_of tool) fullKey) fullKey r;
           env_message := "Successfully executed tool '"
                          ++ JS.or_else (id_of tool) fullKey ++ "'" |}
  | Rejects msg =>
      Thrown
        {| err_site := ToolExecutionFailed;
           err_message :=
             "MCP operation failed: Failed to execute MCP tool: " ++ msg |}
  end.

(** The tool's [execute] was called. *)
Definition is_tool_execute (ev : event) : bool :=
  match ev with
  | CallToolExecute _ _ => true
  | CallGetTools | CallGetResources | CallResourcesRead _ _
  | CallPromptsList => false
  end.

(** The envelope GetResource returns for [info] on [server] with the given
    final content and flags. *)
Definition retrieved (uri server : string) (info : resource)
  (content : string) (isBinary truncated : bool) : envelope :=
  {| env_action := "get_resource";
     env_data :=
       DataResource
         {| rc_uri := uri;
            rc_server := server;
            rc_name := res_name info;
            rc_description := res_description info;
            rc_mimeType := res_mimeType info;
            rc_content := content;
            rc_isBinary := isBinary;
            rc_truncated := truncated;
            rc_size := String.length content |};
     env_message :=
       "Successfully retrieved resource '" ++ res_name info
       ++ "' from server '" ++ server ++ "'"
       ++ (if truncated then " (truncated)" else EmptyString) |}.

(** The prompt listing has reached [server], whose list holds [p] as its
    first prompt named [name], after servers that do not list the name
    (their value is not an array, or holds no prompt of that name). *)
Definition first_prompt_holder (prompts : prompts_map) (name : string)
  (server : string) (p : prompt) : Prop :=
  exists before list_before list_after after,
    prompts
    = (before ++ (server, Some (list_before ++ p :: list_after)) :: after)%list
    /\ (forall s l q, In (s, Some l) before -> In q l ->
         prompt_name_of q <> name)
    /\ (forall q, In q list_before -> prompt_name_of q <> name)
    /\ prompt_name_of p = name.

(** The descriptor ListResources gives for [r] on [server]. *)
Definition listed_resource (server : string) (r : resource)
  : resource_descriptor :=
  {| rd_server := server;
     rd_uri := res_uri r;
     rd_name := res_name r;
     rd_description := JS.or_else (res_description r)
                         "No description available";
     rd_mimeType := res_mimeType r |}.

(** The descriptor ListPrompts gives for [p] on [server]. *)
Definition listed_prompt (server : string) (p : prompt) : prompt_descriptor :=
  {| pd_server := server;
     pd_name := prompt_name_of p;
     pd_description := JS.or_else (prompt_description p)
                         "No description available";
     pd_arguments := arguments_or_empty p |}.

(** The text the GetPrompt fallback looks for in an error message. *)
Definition configuration_marker : string := "Server configuration not found".

(** The envelope of the GetPrompt fallback. *)
Definition fallback_prompt (name server : string) (p : prompt) : envelope :=
  {| env_action := "get_prompt";
     env_data :=
       DataPrompt
         {| pt_name := name;
            pt_server := server;
            pt_description := prompt_description p;
            pt_arguments := arguments_or_empty p;
            pt_providedArguments := None;
            pt_note := "The MCP client library has a known limitation with the prompts.get API. Use list_prompts to see available prompts and their descriptions.";
            pt_instructions := None |};
     env_message :=
       "Prompt template '" ++ name
       ++ "' found but direct execution is not available due to API limitations" |}.

(** The call is a prompt listing. *)
Definition is_prompts_list (ev : event) : bool :=
  match ev with
  | CallPromptsList => true
  | CallGetTools | CallToolExecute _ _ | CallGetResources
  | CallResourcesRead _ _ => false
  end.

(** [text] is what parsing leaves in [arguments]: the empty object for an
    absent or empty text, the parsed value of an accepted text. *)
Definition parses_to (parse : string -> option json) (text : option string)
  (arguments : json) : Prop :=
  (text = None /\ arguments = JObject [])
  \/ (text = Some EmptyString /\ arguments = JObject [])
  \/ (exists t, text = Some t /\ t <> EmptyString /\ parse t = Some arguments).

(** The computation only adds calls accepted by [allowed] to the trace,
    and at most [n] of them. *)
Definition calls_within {A} (allowed : event -> bool) (n : nat) (m : M A)
  : Prop :=
  forall tr,
  exists added,
    snd (m tr) = (tr ++ added)%list
    /\ Forall (fun ev => allowed ev = true) added
    /\ List.length added <= n.

(** The call is not the invocation of a tool. *)
Definition not_tool_execute (ev : event) : bool := negb (is_tool_execute ev).

(** The calls each action may make, and how many. *)
Definition allowed_call (a : action) (ev : event) : bool :=
  match a, ev with
  | list_tools, CallGetTools => true
  | execute_tool, CallGetTools => true
  | execute_tool, CallToolExecute _ _ => true
  | list_resources, CallGetResources => true
  | get_resource, CallGetResources => true
  | get_resource, CallResourcesRead _ _ => true
  | list_prompts, CallPromptsList => true
  | get_prompt, CallPromptsList => true
  | _, _ => false
  end.

Definition most_calls (a : action) : nat :=
  match a with
  | list_tools | list_resources | list_prompts => 1
  | execute_tool | get_resource | get_prompt => 2
  end.

(* ------------------------------------------------------------------ *)
(** * Facts about the primitives *)
(* ------------------------------------------------------------------ *)

Lemma falsy_empty (s : string) : JS.falsy s = true <-> s = EmptyString.
Proof.
  destruct s; simpl; split; intro H; try reflexivity; discriminate.
Qed.

Lemma truthy_nonempty (s : string) : JS.truthy s = true <-> s <> EmptyString.
Proof.
  unfold JS.truthy. destruct s; simpl; split; intro H;
    try reflexivity; try discriminate.
  - now contradict H.
Qed.

Lemma append_empty_r (s : string) : (s ++ EmptyString)%string = s.
Proof.
  induction s as [| ch s IH]; simpl; [reflexivity | now rewrite IH].
Qed.

Lemma append_assoc (a b c : string) :
  ((a ++ b) ++ c)%string = (a ++ (b ++ c))%string.
Proof.
  induction a as [| ch a IH]; simpl; [reflexivity | now rewrite IH].
Qed.

Lemma length_append (a b : string) :
  String.length (a ++ b) = String.length a + String.length b.
Proof.
  induction a as [| ch a IH]; simpl; [reflexivity | now rewrite IH].
Qed.

Lemma prefix_append (s rest : string) : String.prefix s (s ++ rest) = true.
Proof.
  induction s as [| ch s IH]; simpl.
  - now destruct rest.
  - destruct (Ascii.ascii_dec ch ch) as [_ | ne]; [exact IH | now contradict ne].
Qed.

Lemma includes_prefix (s sub : string) :
  String.prefix sub s = true -> JS.includes s sub = true.
Proof.
  intros H. destruct s; cbn [JS.includes]; now rewrite H.
Qed.

(** [s.includes(sub)] holds as soon as [sub] occurs somewhere in [s]. *)
Lemma includes_middle (before sub after : string) :
  JS.includes (before ++ sub ++ after) sub = true.
Proof.
  induction before as [| ch before IH].
  - cbn [append]. apply includes_prefix, prefix_append.
  - change (JS.includes (String ch (before ++ sub ++ after)) sub = true).
    cbn [JS.includes].
    destruct (String.prefix sub (String ch (before ++ sub ++ after)));
      [reflexivity | exact IH].
Qed.

Lemma includes_after (before s sub : string) :
  JS.includes s sub = true -> JS.includes (before ++ s) sub = true.
Proof.
  intros H. induction before as [| ch before IH]; [exact H |].
  change (JS.includes (String ch (before ++ s)) sub = true).
  cbn [JS.includes].
  destruct (String.prefix sub (String ch (before ++ s)));
    [reflexivity | exact IH].
Qed.

Lemma includes_suffix (before sub : string) :
  JS.includes (before ++ sub) sub = true.
Proof.
  rewrite <- (append_empty_r sub) at 1. apply includes_middle.
Qed.

(** Every element of a joined list occurs in the joined text. *)
Lemma join_occurs (sep : string) (l : list string) (k : string) :
  In k l -> exists before after, JS.join sep l = (before ++ k ++ after)%string.
Proof.
  unfold JS.join.
  induction l as [| x l IH]; intros Hin; [destruct Hin |].
  destruct Hin as [-> | Hin].
  - exists EmptyString. destruct l as [| y l].
    + exists EmptyString. simpl. now rewrite append_empty_r.
    + exists (sep ++ String.concat sep (y :: l))%string. reflexivity.
  - destruct (IH Hin) as (before & after & E).
    destruct l as [| y l]; [destruct Hin |].
    exists (x ++ sep ++ before)%string, after.
    change (String.concat sep (x :: y :: l))
      with (x ++ sep ++ String.concat sep (y :: l))%string.
    rewrite E. now rewrite !append_assoc.
Qed.

Lemma take_length (n : nat) (s : string) :
  n <= String.length s -> String.length (JS.take n s) = n.
Proof.
  revert s. induction n as [| n IH]; intros s Hn; [reflexivity |].
  destruct s as [| ch s]; simpl in *; [lia |].
  rewrite IH; [reflexivity | lia].
Qed.

Lemma take_prefix (n : nat) (s : string) :
  exists rest, s = (JS.take n s ++ rest)%string.
Proof.
  revert s. induction n as [| n IH]; intros s.
  - exists s. reflexivity.
  - destruct s as [| ch s]; simpl.
    + exists EmptyString. reflexivity.
    + destruct (IH s) as [rest E]. exists rest. now rewrite <- E.
Qed.

(** [find] returns the first element, in list order, that satisfies the
    test. *)
Lemma find_first {A} (f : A -> bool) (pre post : list A) (x : A) :
  Forall (fun y => f y = false) pre -> f x = true ->
  find f (pre ++ x :: post)%list = Some x.
Proof.
  induction 1 as [| y pre Hy _ IH]; intros Hx; simpl.
  - now rewrite Hx.
  - rewrite Hy. now apply IH.
Qed.

Lemma find_split {A} (f : A -> bool) (l : list A) (x : A) :
  find f l = Some x ->
  exists pre post,
    l = (pre ++ x :: post)%list /\ Forall (fun y => f y = false) pre
    /\ f x = true.
Proof.
  induction l as [| y l IH]; simpl; intros H; [discriminate |].
  destruct (f y) eqn:Hy.
  - injection H as ->. exists [], l. repeat split; [constructor | exact Hy].
  - destruct (IH H) as (pre & post & -> & Hpre & Hx).
    exists (y :: pre), post. repeat split; [now constructor | exact Hx].
Qed.

Lemma find_absent {A} (f : A -> bool) (l : list A) :
  (forall y, In y l -> f y = false) -> find f l = None.
Proof.
  induction l as [| y l IH]; simpl; intros H; [reflexivity |].
  rewrite (H y (or_introl eq_refl)). apply IH. intros z Hz. apply H. now right.
Qed.

(* ------------------------------------------------------------------ *)
(** * Running the branches *)
(* ------------------------------------------------------------------ *)

Ltac step_dispatch :=
  unfold run, execute, case_list_tools, case_execute_tool, case_get_resource,
    case_list_prompts, bind, try_catch, await, required, throw, rethrow, ret.

Lemma required_present (name msg : string) (tr : list event) :
  name <> EmptyString -> required (Some name) msg tr = (Returned name, tr).
Proof.
  intros H. unfold required.
  destruct name; [now contradict H | reflexivity].
Qed.

Lemma toolsList_entries (toolMap : tool_map) :
  Forall2
    (fun d entry =>
       td_fullKey d = fst entry
       /\ td_id d = JS.or_else (id_of (snd entry)) (fst entry))
    (toolsList toolMap) (filter executable_entry toolMap).
Proof.
  unfold toolsList.
  induction toolMap as [| [key tool] rest IH]; simpl; [constructor |].
  unfold executable_entry at 1. simpl.
  destruct tool as [| | p | o | o]; simpl; try exact IH.
  destruct (is_function (tool_execute o)); simpl; [| exact IH].
  constructor; [split; reflexivity | exact IH].
Qed.

(** The list step of ListTools when the tool map is fetched. *)
Lemma list_tools_run parse stringify mcp ctx toolMap :
  ctx_action ctx = list_tools ->
  client_getTools mcp = Resolves toolMap ->
  run (execute parse stringify mcp ctx)
  = (Returned {| env_action := "list_tools";
                 env_data := DataTools (toolsList toolMap);
                 env_message := "Found "
                                ++ JS.of_nat (List.length (toolsList toolMap))
                                ++ " available MCP tools" |},
     [CallGetTools]).
Proof.
  intros Ha Ht. step_dispatch. rewrite Ha, Ht. reflexivity.
Qed.

Lemma matches_tool_true (name key : string) (tool : tool_value) :
  matches_tool name (key, tool) = true <-> key = name \/ id_of tool = Some name.
Proof.
  unfold matches_tool, id_is. rewrite orb_true_iff, String.eqb_eq.
  destruct (id_of tool) as [i |].
  - rewrite String.eqb_eq. split; intros [H | H]; auto.
    + right. now subst.
    + right. now injection H.
  - split; intros [H | H]; auto; discriminate.
Qed.

Lemma matches_tool_false (name key : string) (tool : tool_value) :
  matches_tool name (key, tool) = false
  <-> key <> name /\ id_of tool <> Some name.
Proof.
  rewrite <- not_true_iff_false, matches_tool_true. tauto.
Qed.

Section ExecuteToolRuns.

Variable parse : string -> option json.
Variable stringify : json -> nat -> string.
Variable mcp : client.
Variable ctx : context.
Variable name : string.
Variable toolMap : tool_map.

Hypothesis Haction : ctx_action ctx = execute_tool.
Hypothesis Hname : tool_name ctx = Some name.
Hypothesis Hnonempty : name <> EmptyString.
Hypothesis Htools : client_getTools mcp = Resolves toolMap.

Lemma execute_tool_not_found :
  find (matches_tool name) toolMap = None ->
  run (execute parse stringify mcp ctx)
  = (Thrown {| err_site := ToolNotFound;
               err_message :=
                 "MCP operation failed: Failed to execute MCP tool: Tool '"
                 ++ name ++ "' not found. Available tools: "
                 ++ JS.join ", " (available_tools toolMap) |},
     [CallGetTools]).
Proof.
  intros Hfind. step_dispatch. rewrite Haction, Hname.
  destruct name; [now contradict Hnonempty |]. simpl.
  rewrite Htools. simpl. rewrite Hfind. reflexivity.
Qed.

Lemma execute_tool_not_executable fullKey tool :
  find (matches_tool name) toolMap = Some (fullKey, tool) ->
  is_function (execute_of tool) = false ->
  run (execute parse stringify mcp ctx)
  = (Thrown {| err_site := ToolNotExecutable;
               err_message :=
                 "MCP operation failed: Failed to execute MCP tool: Tool '"
                 ++ fullKey
                 ++ "' is not executable (missing execute function)" |},
     [CallGetTools]).
Proof.
  intros Hfind Hexec. step_dispatch. rewrite Haction, Hname.
  destruct name; [now contradict Hnonempty |]. simpl.
  rewrite Htools. simpl. rewrite Hfind.
  destruct (execute_of tool); [reflexivity | reflexivity | discriminate].
Qed.

Lemma execute_tool_invalid fullKey tool run_tool text :
  find (matches_tool name) toolMap = Some (fullKey, tool) ->
  execute_of tool = ExecuteFunction run_tool ->
  tool_arguments ctx = Some text ->
  text <> EmptyString ->
  parse text = None ->
  run (execute parse stringify mcp ctx)
  = (Thrown {| err_site := InvalidArguments;
               err_message :=
                 "MCP operation failed: Failed to execute MCP tool: Invalid JSON format for tool_arguments: "
                 ++ text |},
     [CallGetTools]).
Proof.
  intros Hfind Hexec Hargs Htext Hparse. step_dispatch.
  rewrite Haction, Hname.
  destruct name; [now contradict Hnonempty |]. simpl.
  rewrite Htools. simpl. rewrite Hfind, Hexec.
  unfold parse_arguments. rewrite Hargs.
  destruct text; [now contradict Htext |]. simpl.
  rewrite Hparse. reflexivity.
Qed.

Lemma execute_tool_called fullKey tool run_tool arguments :
  find (matches_tool name) toolMap = Some (fullKey, tool) ->
  execute_of tool = ExecuteFunction run_tool ->
  parse_arguments parse "tool_arguments" (tool_arguments ctx) [CallGetTools]
  = (Returned arguments, [CallGetTools]) ->
  run (execute parse stringify mcp ctx)
  = (executed fullKey tool (run_tool arguments),
     [CallGetTools; CallToolExecute fullKey arguments]).
Proof.
  intros Hfind Hexec Hparse. step_dispatch.
  rewrite Haction, Hname.
  destruct name; [now contradict Hnonempty |]. simpl.
  rewrite Htools. simpl. rewrite Hfind, Hexec, Hparse.
  unfold executed. destruct (run_tool arguments); reflexivity.
Qed.

End ExecuteToolRuns.

(** Every descriptor of [toolsList] comes from an entry holding a tool
    object with a callable [execute]. *)
Lemma toolsList_origin (toolMap : tool_map) (d : tool_descriptor) :
  In d (toolsList toolMap) ->
  exists key o,
    In (key, TObject o) toolMap
    /\ is_function (tool_execute o) = true
    /\ td_fullKey d = key
    /\ td_id d = JS.or_else (tool_id o) key.
Proof.
  unfold toolsList.
  induction toolMap as [| [key tool] rest IH]; simpl; [intros [] |].
  assert (Hrest : In d (filter_Boolean (map describe_tool rest)) ->
                  exists key0 o,
                    ((key, tool) = (key0, TObject o) \/ In (key0, TObject o) rest)
                    /\ is_function (tool_execute o) = true
                    /\ td_fullKey d = key0
                    /\ td_id d = JS.or_else (tool_id o) key0).
  { intros H. destruct (IH H) as (k & o & Hin & Hexec & Hkey & Hid).
    exists k, o. auto. }
  destruct tool as [| | p | o | o]; try exact Hrest.
  destruct (is_function (tool_execute o)) eqn:Hexec; [| exact Hrest].
  intros [<- | H]; [| now apply Hrest].
  exists key, o. simpl. auto.
Qed.

Lemma scan_absent (resources : resources_map) (uri : string) :
  (forall s l r, In (s, l) resources -> In r l -> res_uri r <> uri) ->
  scan_servers resources uri = (None, None).
Proof.
  induction resources as [| [s l] rest IH]; intros H; [reflexivity |].
  simpl. rewrite find_absent.
  - apply IH. intros s' l' r Hin. apply (H s' l' r). now right.
  - intros r Hr. apply String.eqb_neq. apply (H s l r); [now left | exact Hr].
Qed.

Lemma scan_first_holder (resources : resources_map) (uri server : string)
  (r : resource) :
  first_holder resources uri server r ->
  scan_servers resources uri = (Some server, Some r).
Proof.
  intros (before & lb & la & after & -> & Hbefore & Hlb & Hr).
  induction before as [| [s l] before IH]; simpl.
  - rewrite find_first; [reflexivity | | now apply String.eqb_eq].
    apply Forall_forall. intros r' Hr'. apply String.eqb_neq. now apply Hlb.
  - rewrite find_absent.
    + apply IH. intros s' l' r' Hin. apply (Hbefore s' l' r'). now right.
    + intros r' Hr'. apply String.eqb_neq.
      apply (Hbefore s l r'); [now left | exact Hr'].
Qed.

Section GetResourceRuns.

Variable parse : string -> option json.
Variable stringify : json -> nat -> string.
Variable mcp : client.
Variable ctx : context.
Variable uri : string.
Variable resources : resources_map.

Hypothesis Haction : ctx_action ctx = get_resource.
Hypothesis Huri : resource_uri ctx = Some uri.
Hypothesis Hnonempty : uri <> EmptyString.
Hypothesis Hresources : client_getResources mcp = Resolves resources.

Lemma get_resource_not_found :
  scan_servers resources uri = (None, None) ->
  run (execute parse stringify mcp ctx)
  = (Thrown {| err_site := ResourceNotFound;
               err_message :=
                 "MCP operation failed: Failed to get MCP resource: Resource '"
                 ++ uri
                 ++ "' not found. Use list_resources to see available resources." |},
     [CallGetResources]).
Proof.
  intros Hscan. step_dispatch. rewrite Haction, Huri.
  destruct uri; [now contradict Hnonempty |]. simpl.
  rewrite Hresources. simpl. rewrite Hscan. reflexivity.
Qed.

Lemma get_resource_read server info res :
  scan_servers resources uri = (Some server, Some info) ->
  server <> EmptyString ->
  client_resources_read mcp server uri = Resolves res ->
  run (execute parse stringify mcp ctx)
  = (Returned
       (retrieved uri server info
          (fst (truncate (maxSize (max_bytes ctx))
                  (fst (extract_content stringify res))
                  (snd (extract_content stringify res))))
          (snd (extract_content stringify res))
          (snd (truncate (maxSize (max_bytes ctx))
                  (fst (extract_content stringify res))
                  (snd (extract_content stringify res))))),
     [CallGetResources; CallResourcesRead server uri]).
Proof.
  intros Hscan Hserver Hread. step_dispatch. rewrite Haction, Huri.
  destruct uri; [now contradict Hnonempty |]. simpl.
  rewrite Hresources. simpl. rewrite Hscan.
  destruct server; [now contradict Hserver |]. simpl.
  rewrite Hread.
  destruct (extract_content stringify res) as [content0 isBinary]. simpl.
  destruct (truncate (maxSize (max_bytes ctx)) content0 isBinary)
    as [content truncated].
  reflexivity.
Qed.

Lemma get_resource_read_failed server info msg :
  scan_servers resources uri = (Some server, Some info) ->
  server <> EmptyString ->
  client_resources_read mcp server uri = Rejects msg ->
  run (execute parse stringify mcp ctx)
  = (Thrown {| err_site := RemoteFailure;
               err_message :=
                 "MCP operation failed: Failed to get MCP resource: "
                 ++ msg |},
     [CallGetResources; CallResourcesRead server uri]).
Proof.
  intros Hscan Hserver Hread. step_dispatch. rewrite Haction, Huri.
  destruct uri; [now contradict Hnonempty |]. simpl.
  rewrite Hresources. simpl. rewrite Hscan.
  destruct server; [now contradict Hserver |]. simpl.
  rewrite Hread. reflexivity.
Qed.

End GetResourceRuns.

Lemma truncate_binary (limit : JS.number) (content : string) :
  truncate limit content true = (content, false).
Proof. reflexivity. Qed.

Lemma truncate_within (limit : JS.number) (content : string) :
  JS.length_gt (String.length content) limit = false ->
  truncate limit content false = (content, false).
Proof.
  intros H. unfold truncate. simpl. now rewrite H.
Qed.

Lemma truncate_beyond (limit : JS.number) (content : string) :
  JS.length_gt (String.length content) limit = true ->
  truncate limit content false
  = (JS.take (JS.clamp_index (String.length content) limit) content, true).
Proof.
  intros H. unfold truncate, JS.substring0. simpl. now rewrite H.
Qed.

(** An integer among the finite numbers: comparison with a length and
    the index [substring] makes of it. *)
Lemma length_gt_integer (len : nat) (q : Q) (n : Z) :
  Qeq q (inject_Z n) ->
  JS.length_gt len (JS.Finite q) = Z.ltb n (Z.of_nat len).
Proof.
  unfold Qeq, JS.length_gt, Qle_bool. simpl. intros H.
  rewrite Z.mul_1_r in H.
  destruct (Z.leb_spec (Z.of_nat len * QDen q) (Qnum q * 1));
    destruct (Z.ltb_spec n (Z.of_nat len)); simpl; try reflexivity; nia.
Qed.

Lemma clamp_index_integer (len : nat) (q : Q) (n : Z) :
  Qeq q (inject_Z n) -> (0 <= n <= Z.of_nat len)%Z ->
  JS.clamp_index len (JS.Finite q) = Z.to_nat n.
Proof.
  unfold Qeq, JS.clamp_index. simpl. intros H Hn.
  rewrite Z.mul_1_r in H. rewrite H, Z.quot_mul by discriminate.
  now rewrite Z.max_l, Z.min_l by lia.
Qed.

Lemma byte_cap_maxSize (max_bytes : option JS.number) (cap : Z) :
  byte_cap max_bytes cap ->
  exists q, maxSize max_bytes = JS.Finite q /\ Qeq q (inject_Z cap)
            /\ (0 < cap)%Z.
Proof.
  intros [| q Hq | q n Hq Hn]; simpl.
  - exists (inject_Z 100000). repeat split.
  - apply Qeq_bool_iff in Hq. rewrite Hq. simpl.
    exists (inject_Z 100000). repeat split.
  - exists q. split; [| split; assumption].
    destruct (Qeq_bool q 0) eqn:Hzero; [| reflexivity].
    apply Qeq_bool_iff in Hzero. unfold Qeq in *. simpl in *. nia.
Qed.

Lemma read_contents_texts (items : list content_part) (content : string) :
  Forall (fun item => carries_binary item = false) items ->
  read_contents items content = ((content ++ concat_texts items)%string, false).
Proof.
  intros H. revert content.
  induction H as [| item rest Hitem _ IH]; intros content; simpl.
  - now rewrite append_empty_r.
  - unfold carries_binary, carries_text in *.
    destruct (JS.truthy_opt (part_text item)); simpl in *.
    + rewrite IH. now rewrite append_assoc.
    + rewrite Hitem. apply IH.
Qed.

Lemma read_contents_binary (before after : list content_part)
  (item : content_part) (blob content : string) :
  Forall (fun i => carries_binary i = false) before ->
  carries_binary item = true ->
  part_blob item = Some blob ->
  read_contents (before ++ item :: after)%list content = (blob, true).
Proof.
  intros H Hitem Hblob. revert content.
  induction H as [| i rest Hi _ IH]; intros content; simpl.
  - unfold carries_binary, carries_text in Hitem.
    destruct (JS.truthy_opt (part_text item)); [discriminate |].
    simpl in Hitem. rewrite Hitem, Hblob. unfold JS.or_else.
    rewrite Hblob in Hitem. simpl in Hitem. now rewrite Hitem.
  - unfold carries_binary, carries_text in Hi.
    destruct (JS.truthy_opt (part_text i)); simpl in *.
    + apply IH.
    + rewrite Hi. apply IH.
Qed.

(* ------------------------------------------------------------------ *)
(** * Properties *)
(* ------------------------------------------------------------------ *)

(** C2. When the flat tool map is fetched, ListTools returns exactly one
    descriptor for each entry whose value is a non-null object with a
    callable [execute], in the order of the entries and carrying the entry's
    key, and none for any other entry; the length of the list is the number
    of such entries. *)
Theorem list_tools_executable_entries :
  forall parse stringify mcp ctx toolMap,
    ctx_action ctx = list_tools ->
    client_getTools mcp = Resolves toolMap ->
    exists tools,
      run (execute parse stringify mcp ctx)
      = (Returned {| env_action := "list_tools";
                     env_data := DataTools tools;
                     env_message := "Found " ++ JS.of_nat (List.length tools)
                                    ++ " available MCP tools" |},
         [CallGetTools])
      /\ Forall2
           (fun d entry =>
              td_fullKey d = fst entry
              /\ td_id d = JS.or_else (id_of (snd entry)) (fst entry))
           tools (filter executable_entry toolMap)
      /\ List.length tools = List.length (filter executable_entry toolMap).
Proof.
  intros parse stringify mcp ctx toolMap Ha Ht.
  exists (toolsList toolMap). split; [| split].
  - now apply list_tools_run.
  - apply toolsList_entries.
  - exact (Forall2_length (toolsList_entries toolMap)).
Qed.

Lemma list_tools_executable_entries_witness :
  ctx_action (Sample.request list_tools) = list_tools
  /\ client_getTools (Sample.tools_client Sample.mixed)
     = Resolves Sample.mixed
  /\ exists tools,
       run (execute Sample.parse Sample.stringify
              (Sample.tools_client Sample.mixed) (Sample.request list_tools))
       = (Returned {| env_action := "list_tools";
                      env_data := DataTools tools;
                      env_message := "Found " ++ JS.of_nat (List.length tools)
                                     ++ " available MCP tools" |},
          [CallGetTools])
       /\ Forall2
            (fun d entry =>
               td_fullKey d = fst entry
               /\ td_id d = JS.or_else (id_of (snd entry)) (fst entry))
            tools (filter executable_entry Sample.mixed)
       /\ List.length tools
          = List.length (filter executable_entry Sample.mixed).
Proof.
  split; [reflexivity | split; [reflexivity |]].
  apply (list_tools_executable_entries Sample.parse Sample.stringify
           (Sample.tools_client Sample.mixed) (Sample.request list_tools)
           Sample.mixed); reflexivity.
Defined.

(** C1, as amended. ExecuteTool resolves a non-empty [tool_name] in one
    pass over the entries: it takes the first entry, in iteration order,
    whose key equals [tool_name] or whose declared [id] equals it.  An entry
    is therefore chosen as soon as no earlier entry matches by key or by id;
    a callable tool found this way is the one invoked, and an entry without a
    callable [execute] found this way ends the call. *)
Theorem execute_tool_first_match :
  forall parse stringify mcp ctx name before fullKey tool after,
    ctx_action ctx = execute_tool ->
    tool_name ctx = Some name ->
    name <> EmptyString ->
    client_getTools mcp = Resolves (before ++ (fullKey, tool) :: after)%list ->
    (forall k v, In (k, v) before -> k <> name /\ id_of v <> Some name) ->
    fullKey = name \/ id_of tool = Some name ->
    find (matches_tool name) (before ++ (fullKey, tool) :: after)%list
    = Some (fullKey, tool)
    /\ (forall run_tool,
          execute_of tool = ExecuteFunction run_tool ->
          tool_arguments ctx = None ->
          run (execute parse stringify mcp ctx)
          = (executed fullKey tool (run_tool (JObject [])),
             [CallGetTools; CallToolExecute fullKey (JObject [])]))
    /\ (is_function (execute_of tool) = false ->
        run (execute parse stringify mcp ctx)
        = (Thrown {| err_site := ToolNotExecutable;
                     err_message :=
                       "MCP operation failed: Failed to execute MCP tool: Tool '"
                       ++ fullKey
                       ++ "' is not executable (missing execute function)" |},
           [CallGetTools])).
Proof.
  intros parse stringify mcp ctx name before fullKey tool after
    Ha Hn Hne Ht Hbefore Hmatch.
  assert (Hfind : find (matches_tool name)
                    (before ++ (fullKey, tool) :: after)%list
                  = Some (fullKey, tool)).
  { apply find_first.
    - apply Forall_forall. intros [k v] Hin.
      apply matches_tool_false. now apply Hbefore.
    - now apply matches_tool_true. }
  split; [exact Hfind | split].
  - intros run_tool Hexec Hargs.
    apply (execute_tool_called parse stringify mcp ctx name _ Ha Hn Hne Ht
             fullKey tool run_tool (JObject []) Hfind Hexec).
    unfold parse_arguments. now rewrite Hargs.
  - intros Hexec.
    now apply (execute_tool_not_executable parse stringify mcp ctx name _
                 Ha Hn Hne Ht fullKey tool Hfind).
Qed.

Lemma execute_tool_first_match_witness :
  find (matches_tool "rube_plan") Sample.crossed
  = Some ("rube_search", Sample.tool (Some "rube_plan") Sample.echo)
  /\ run (execute Sample.parse Sample.stringify
            (Sample.tools_client Sample.crossed)
            (Sample.with_tool "rube_plan" None))
     = (executed "rube_search" (Sample.tool (Some "rube_plan") Sample.echo)
          (Resolves (JObject [])),
        [CallGetTools; CallToolExecute "rube_search" (JObject [])]).
Proof.
  destruct (execute_tool_first_match Sample.parse Sample.stringify
              (Sample.tools_client Sample.crossed)
              (Sample.with_tool "rube_plan" None) "rube_plan"
              [] "rube_search" (Sample.tool (Some "rube_plan") Sample.echo)
              [("rube_plan",
                Sample.tool (Some "PLAN")
                  (ExecuteFunction (fun _ => Resolves (JString "planned"))))])
    as (Hfind & Hrun & _).
  - reflexivity.
  - reflexivity.
  - discriminate.
  - reflexivity.
  - intros k v [].
  - right. reflexivity.
  - split; [exact Hfind |].
    exact (Hrun (fun arguments => Resolves arguments) eq_refl eq_refl).
Defined.

(** C1, as stated, fails: in [Sample.crossed] the second entry has the key
    [rube_plan], yet ExecuteTool of [rube_plan] resolves to the first entry,
    whose id is [rube_plan], and runs that one. *)
Lemma key_match_not_preferred :
  resolve_key_first Sample.crossed "rube_plan"
  = Some ("rube_plan",
          Sample.tool (Some "PLAN")
            (ExecuteFunction (fun _ => Resolves (JString "planned"))))
  /\ find (matches_tool "rube_plan") Sample.crossed
     <> resolve_key_first Sample.crossed "rube_plan"
  /\ run (execute Sample.parse Sample.stringify
            (Sample.tools_client Sample.crossed)
            (Sample.with_tool "rube_plan" None))
     = (Returned
          {| env_action := "execute_tool";
             env_data := DataExecuted "rube_plan" "rube_search" (JObject []);
             env_message := "Successfully executed tool 'rube_plan'" |},
        [CallGetTools; CallToolExecute "rube_search" (JObject [])]).
Proof.
  split; [reflexivity | split; [| reflexivity]].
  cbv. intros H. discriminate H.
Qed.

(** C6. When [tool_name] resolves to an entry with a callable [execute]
    and [tool_arguments] is a non-empty text that [JSON.parse] rejects, the
    call fails at the InvalidArguments site, the message ends with the
    offending text, and the only call made is the fetch of the tool map: the
    tool's [execute] is not invoked.  When [tool_arguments] is absent or
    empty the tool is invoked with the empty object. *)
Theorem execute_tool_invalid_arguments :
  forall parse stringify mcp ctx name toolMap fullKey tool run_tool,
    ctx_action ctx = execute_tool ->
    tool_name ctx = Some name ->
    name <> EmptyString ->
    client_getTools mcp = Resolves toolMap ->
    find (matches_tool name) toolMap = Some (fullKey, tool) ->
    execute_of tool = ExecuteFunction run_tool ->
    (forall text,
        tool_arguments ctx = Some text ->
        text <> EmptyString ->
        parse text = None ->
        exists msg trace,
          run (execute parse stringify mcp ctx)
          = (Thrown {| err_site := InvalidArguments; err_message := msg |},
             trace)
          /\ msg = ("MCP operation failed: Failed to execute MCP tool: Invalid JSON format for tool_arguments: "
                    ++ text)%string
          /\ JS.includes msg text = true
          /\ existsb is_tool_execute trace = false)
    /\ (tool_arguments ctx = None \/ tool_arguments ctx = Some EmptyString ->
        run (execute parse stringify mcp ctx)
        = (executed fullKey tool (run_tool (JObject [])),
           [CallGetTools; CallToolExecute fullKey (JObject [])])).
Proof.
  intros parse stringify mcp ctx name toolMap fullKey tool run_tool
    Ha Hn Hne Ht Hfind Hexec.
  split.
  - intros text Hargs Htext Hparse.
    eexists. exists [CallGetTools]. split; [| split; [reflexivity | split]].
    + now apply (execute_tool_invalid parse stringify mcp ctx name toolMap
                   Ha Hn Hne Ht fullKey tool run_tool text).
    + apply includes_suffix.
    + reflexivity.
  - intros Hargs.
    apply (execute_tool_called parse stringify mcp ctx name toolMap
             Ha Hn Hne Ht fullKey tool run_tool (JObject []) Hfind Hexec).
    unfold parse_arguments. destruct Hargs as [-> | ->]; reflexivity.
Qed.

Lemma execute_tool_invalid_arguments_witness :
  Sample.parse "not json" = None
  /\ exists msg trace,
       run (execute Sample.parse Sample.stringify
              (Sample.tools_client Sample.mixed)
              (Sample.with_tool "plan" (Some "not json")))
       = (Thrown {| err_site := InvalidArguments; err_message := msg |}, trace)
       /\ msg = "MCP operation failed: Failed to execute MCP tool: Invalid JSON format for tool_arguments: not json"
       /\ JS.includes msg "not json" = true
       /\ existsb is_tool_execute trace = false.
Proof.
  split; [reflexivity |].
  refine (proj1
            (execute_tool_invalid_arguments Sample.parse Sample.stringify
               (Sample.tools_client Sample.mixed)
               (Sample.with_tool "plan" (Some "not json")) "plan"
               Sample.mixed "plan" (Sample.tool None Sample.echo)
               (fun arguments => Resolves arguments)
               eq_refl eq_refl _ eq_refl eq_refl eq_refl)
            "not json" eq_refl _ eq_refl); discriminate.
Defined.

(** C7, as amended. For a non-empty [tool_name] that equals no entry's key
    and no entry's declared id, ExecuteTool fails at the ToolNotFound site
    after fetching the tool map, and the message contains every key of the
    map whose value exposes a callable [execute]. *)
Theorem execute_tool_unknown_name :
  forall parse stringify mcp ctx name toolMap,
    ctx_action ctx = execute_tool ->
    tool_name ctx = Some name ->
    name <> EmptyString ->
    client_getTools mcp = Resolves toolMap ->
    (forall k v, In (k, v) toolMap -> k <> name /\ id_of v <> Some name) ->
    exists msg,
      run (execute parse stringify mcp ctx)
      = (Thrown {| err_site := ToolNotFound; err_message := msg |},
         [CallGetTools])
      /\ JS.includes msg name = true
      /\ (forall key,
             In key (keys toolMap) ->
             exposes_execute toolMap key ->
             JS.includes msg key = true).
Proof.
  intros parse stringify mcp ctx name toolMap Ha Hn Hne Ht Hnone.
  eexists. split; [| split].
  - apply (execute_tool_not_found parse stringify mcp ctx name toolMap
             Ha Hn Hne Ht).
    apply find_absent. intros [k v] Hin.
    apply matches_tool_false. now apply Hnone.
  - apply includes_middle.
  - intros key Hkey (tool & Hlookup & Hexec).
    assert (Hin : In key (available_tools toolMap)).
    { unfold available_tools. apply filter_In. split; [exact Hkey |].
      now rewrite Hlookup. }
    destruct (join_occurs ", " _ _ Hin) as (before & after & ->).
    do 3 apply includes_after. apply includes_middle.
Qed.

Lemma execute_tool_unknown_name_witness :
  exists msg,
    run (execute Sample.parse Sample.stringify
           (Sample.tools_client Sample.mixed) (Sample.with_tool "nope" None))
    = (Thrown {| err_site := ToolNotFound; err_message := msg |},
       [CallGetTools])
    /\ JS.includes msg "nope" = true
    /\ (forall key,
           In key (keys Sample.mixed) ->
           exposes_execute Sample.mixed key ->
           JS.includes msg key = true).
Proof.
  apply (execute_tool_unknown_name Sample.parse Sample.stringify
           (Sample.tools_client Sample.mixed) (Sample.with_tool "nope" None)
           "nope" Sample.mixed); try reflexivity; try discriminate.
  intros k v Hin. simpl in Hin.
  destruct Hin as [H | [H | [H | [H | []]]]]; injection H as <- <-;
    split; discriminate.
Defined.

(** C7, as stated, fails: the empty [tool_name] equals no key and no id of
    [Sample.mixed], yet ExecuteTool does not fail at the ToolNotFound site;
    the guard on a missing tool name rejects the request before the map is
    fetched. *)
Lemma empty_tool_name_not_looked_up :
  (forall k v,
      In (k, v) Sample.mixed ->
      k <> EmptyString /\ id_of v <> Some EmptyString)
  /\ run (execute Sample.parse Sample.stringify
            (Sample.tools_client Sample.mixed)
            (Sample.with_tool EmptyString None))
     = (Thrown {| err_site := MissingParameter;
                  err_message := "MCP operation failed: Tool name is required for execute_tool action" |},
        [])
  /\ ~ (exists msg trace,
          run (execute Sample.parse Sample.stringify
                 (Sample.tools_client Sample.mixed)
                 (Sample.with_tool EmptyString None))
          = (Thrown {| err_site := ToolNotFound; err_message := msg |},
             trace)).
Proof.
  split; [| split].
  - intros k v Hin. simpl in Hin.
    destruct Hin as [H | [H | [H | [H | []]]]]; injection H as <- <-;
      split; discriminate.
  - reflexivity.
  - intros (msg & trace & H). discriminate H.
Qed.

(** C9. Whatever ListTools returns, ExecuteTool called on the same client
    with [tool_name] set to the id of one of the returned descriptors does
    not fail at the ToolNotFound site (with empty arguments or any
    other). *)
Theorem list_then_execute_finds_tool :
  forall parse stringify mcp listing env tools d ctx e,
    ctx_action listing = list_tools ->
    fst (run (execute parse stringify mcp listing)) = Returned env ->
    env_data env = DataTools tools ->
    In d tools ->
    ctx_action ctx = execute_tool ->
    tool_name ctx = Some (td_id d) ->
    fst (run (execute parse stringify mcp ctx)) = Thrown e ->
    err_site e <> ToolNotFound.
Proof.
  intros parse stringify mcp listing env tools d ctx e
    Hl Hlist Hdata Hd Ha Hn Hrun.
  destruct (client_getTools mcp) as [msg | toolMap] eqn:Ht.
  - revert Hlist. step_dispatch. rewrite Hl, Ht. simpl.
    intros H. injection H as <-. simpl in Hdata.
    injection Hdata as <-. destruct Hd.
  - rewrite (list_tools_run parse stringify mcp listing toolMap Hl Ht) in Hlist.
    simpl in Hlist. injection Hlist as <-. simpl in Hdata.
    injection Hdata as <-.
    destruct (toolsList_origin toolMap d Hd)
      as (key & o & Hin & Hexec & Hkey & Hid).
    destruct (td_id d) as [| ch rest] eqn:Eid.
    + revert Hrun. step_dispatch. rewrite Ha, Hn. simpl.
      intros H. injection H as <-. discriminate.
    + assert (Hne : String ch rest <> EmptyString) by discriminate.
      assert (Hmatch : matches_tool (String ch rest) (key, TObject o) = true).
      { apply matches_tool_true. simpl. unfold JS.or_else in Hid.
        destruct (tool_id o) as [i |]; [| now left].
        destruct (JS.truthy i); [right | left]; congruence. }
      destruct (find (matches_tool (String ch rest)) toolMap)
        as [[fullKey tool] |] eqn:Hfind.
      2: { rewrite (find_none _ _ Hfind _ Hin) in Hmatch. discriminate. }
      destruct (execute_of tool) as [| | run_tool] eqn:Etool.
      * rewrite (execute_tool_not_executable parse stringify mcp ctx _ toolMap
                   Ha Hn Hne Ht fullKey tool Hfind) in Hrun
          by now rewrite Etool.
        injection Hrun as <-. discriminate.
      * rewrite (execute_tool_not_executable parse stringify mcp ctx _ toolMap
                   Ha Hn Hne Ht fullKey tool Hfind) in Hrun
          by now rewrite Etool.
        injection Hrun as <-. discriminate.
      * destruct (parse_arguments parse "tool_arguments" (tool_arguments ctx)
                    [CallGetTools]) as [[arguments | err] tr] eqn:Hparse.
        -- assert (tr = [CallGetTools]) as ->.
           { revert Hparse. unfold parse_arguments, ret, throw.
             destruct (tool_arguments ctx) as [t |];
               [destruct (JS.truthy t); [destruct (parse t) |] |];
               intros H; now injection H. }
           rewrite (execute_tool_called parse stringify mcp ctx _ toolMap
                      Ha Hn Hne Ht fullKey tool run_tool arguments
                      Hfind Etool Hparse) in Hrun.
           unfold executed in Hrun. simpl in Hrun.
           destruct (run_tool arguments); [| discriminate].
           injection Hrun as <-. discriminate.
        -- revert Hparse. unfold parse_arguments, ret, throw.
           destruct (tool_arguments ctx) as [t |] eqn:Hargs;
             [destruct (JS.truthy t) eqn:Htruthy;
              [destruct (parse t) eqn:Hp |] |];
             intros H; try discriminate H.
           rewrite (execute_tool_invalid parse stringify mcp ctx _ toolMap
                      Ha Hn Hne Ht fullKey tool run_tool t
                      Hfind Etool Hargs) in Hrun.
           ++ injection Hrun as <-. discriminate.
           ++ now apply truthy_nonempty.
           ++ exact Hp.
Qed.

Lemma list_then_execute_finds_tool_witness :
  err_site {| err_site := ToolNotExecutable;
              err_message := "MCP operation failed: Failed to execute MCP tool: Tool 'broken' is not executable (missing execute function)" |}
  <> ToolNotFound.
Proof.
  apply (list_then_execute_finds_tool Sample.parse Sample.stringify
           (Sample.tools_client
              [ ("broken", Sample.tool (Some "shared") ExecuteAbsent);
                ("rube_search", Sample.tool (Some "shared") Sample.echo) ])
           (Sample.request list_tools)
           {| env_action := "list_tools";
              env_data :=
                DataTools
                  [ {| td_fullKey := "rube_search";
                       td_id := "shared";
                       td_server := "rube";
                       td_description := "No description available";
                       td_inputSchema := None;
                       td_outputSchema := None |} ];
              env_message := "Found 1 available MCP tools" |}
           [ {| td_fullKey := "rube_search";
                td_id := "shared";
                td_server := "rube";
                td_description := "No description available";
                td_inputSchema := None;
                td_outputSchema := None |} ]
           {| td_fullKey := "rube_search";
              td_id := "shared";
              td_server := "rube";
              td_description := "No description available";
              td_inputSchema := None;
              td_outputSchema := None |}
           (Sample.with_tool "shared" None)).
  - reflexivity.
  - reflexivity.
  - reflexivity.
  - left. reflexivity.
  - reflexivity.
  - reflexivity.
  - reflexivity.
Defined.

(** C3, as amended. The cap is [max_bytes] when it is supplied as a
    positive integer, and 100000 when it is absent or zero.  For a GetResource
    request that resolves and whose read result is textual and longer than
    the cap, the returned content is the prefix of that text whose length is
    the cap, [truncated] is true and [size] is the cap. *)
Theorem get_resource_truncates_text :
  forall parse stringify mcp ctx uri resources server info res content cap,
    ctx_action ctx = get_resource ->
    resource_uri ctx = Some uri ->
    uri <> EmptyString ->
    client_getResources mcp = Resolves resources ->
    first_holder resources uri server info ->
    server <> EmptyString ->
    client_resources_read mcp server uri = Resolves res ->
    extract_content stringify res = (content, false) ->
    byte_cap (max_bytes ctx) cap ->
    (cap < Z.of_nat (String.length content))%Z ->
    exists kept dropped rc,
      run (execute parse stringify mcp ctx)
      = (Returned (retrieved uri server info kept false true),
         [CallGetResources; CallResourcesRead server uri])
      /\ env_data (retrieved uri server info kept false true) = DataResource rc
      /\ content = (kept ++ dropped)%string
      /\ rc_content rc = kept
      /\ Z.of_nat (String.length (rc_content rc)) = cap
      /\ rc_truncated rc = true
      /\ Z.of_nat (rc_size rc) = cap.
Proof.
  intros parse stringify mcp ctx uri resources server info res content cap
    Ha Hu Hne Hr Hholder Hserver Hread Hextract Hcap Hlong.
  destruct (byte_cap_maxSize _ _ Hcap) as (q & Hmax & Hq & Hpos).
  destruct (take_prefix (Z.to_nat cap) content) as [dropped Hsplit].
  assert (Hlen : Z.of_nat (String.length (JS.take (Z.to_nat cap) content))
                 = cap).
  { rewrite take_length; lia. }
  exists (JS.take (Z.to_nat cap) content), dropped. eexists.
  split; [| split; [reflexivity | repeat split; assumption]].
  rewrite (get_resource_read parse stringify mcp ctx uri resources
             Ha Hu Hne Hr server info res
             (scan_first_holder _ _ _ _ Hholder) Hserver Hread).
  rewrite Hextract, Hmax. simpl.
  rewrite truncate_beyond
    by (rewrite (length_gt_integer _ q cap Hq); apply Z.ltb_lt; exact Hlong).
  rewrite (clamp_index_integer _ q cap Hq) by lia. reflexivity.
Qed.

(** The example of the specification: [max_bytes = 10] on a text of one
    hundred characters. *)
Lemma get_resource_truncates_text_witness :
  String.length Sample.hundred = 100
  /\ exists kept dropped rc,
       run (execute Sample.parse Sample.stringify
              (Sample.two_servers (ResultString Sample.hundred))
              (Sample.with_resource "doc://b" (Some (JS.Finite 10))))
       = (Returned
            (retrieved "doc://b" "B" (Sample.note "doc://b" "b") kept
               false true),
          [CallGetResources; CallResourcesRead "B" "doc://b"])
       /\ env_data
            (retrieved "doc://b" "B" (Sample.note "doc://b" "b") kept
               false true)
          = DataResource rc
       /\ Sample.hundred = (kept ++ dropped)%string
       /\ rc_content rc = kept
       /\ Z.of_nat (String.length (rc_content rc)) = 10%Z
       /\ rc_truncated rc = true
       /\ Z.of_nat (rc_size rc) = 10%Z.
Proof.
  split; [reflexivity |].
  apply (get_resource_truncates_text Sample.parse Sample.stringify
           (Sample.two_servers (ResultString Sample.hundred))
           (Sample.with_resource "doc://b" (Some (JS.Finite 10))) "doc://b"
           [ ("A", [Sample.note "doc://a" "a"]);
             ("B", [Sample.note "doc://b" "b"]) ]
           "B" (Sample.note "doc://b" "b") (ResultString Sample.hundred)
           Sample.hundred 10%Z).
  - reflexivity.
  - reflexivity.
  - discriminate.
  - reflexivity.
  - exists [("A", [Sample.note "doc://a" "a"])], [], [], [].
    split; [reflexivity | split; [| split; [| reflexivity]]].
    + intros s l r' [H | []] Hr'. injection H as <- <-.
      destruct Hr' as [<- | []]. discriminate.
    + intros r' [].
  - discriminate.
  - reflexivity.
  - reflexivity.
  - apply cap_supplied; reflexivity.
  - reflexivity.
Defined.

(** C3, as stated, fails: with [max_bytes] supplied as 0 the cap worded by
    the claim is 0 and the five-character text is longer than it, yet the
    text is returned whole, [truncated] is false and [size] is 5. *)
Lemma zero_max_bytes_is_not_the_cap :
  cap_as_worded (Some (JS.Finite 0)) = JS.Finite 0
  /\ extract_content Sample.stringify (ResultString "hello")
     = ("hello", false)
  /\ JS.length_gt (String.length "hello") (cap_as_worded (Some (JS.Finite 0)))
     = true
  /\ run (execute Sample.parse Sample.stringify
            (Sample.two_servers (ResultString "hello"))
            (Sample.with_resource "doc://b" (Some (JS.Finite 0))))
     = (Returned
          {| env_action := "get_resource";
             env_data :=
               DataResource
                 {| rc_uri := "doc://b";
                    rc_server := "B";
                    rc_name := "b";
                    rc_description := None;
                    rc_mimeType := Some "text/plain";
                    rc_content := "hello";
                    rc_isBinary := false;
                    rc_truncated := false;
                    rc_size := 5 |};
             env_message :=
               "Successfully retrieved resource 'b' from server 'B'" |},
        [CallGetResources; CallResourcesRead "B" "doc://b"]).
Proof.
  repeat split.
Qed.

(** C10. With [max_bytes] supplied as 0, or as any falsy number, the cap
    applied is the default 100000, not 0: a textual content of length at
    most 100000 is returned whole, with [truncated] false. *)
Theorem get_resource_zero_max_bytes :
  forall parse stringify mcp ctx uri resources server info res content n,
    ctx_action ctx = get_resource ->
    resource_uri ctx = Some uri ->
    uri <> EmptyString ->
    client_getResources mcp = Resolves resources ->
    first_holder resources uri server info ->
    server <> EmptyString ->
    client_resources_read mcp server uri = Resolves res ->
    extract_content stringify res = (content, false) ->
    max_bytes ctx = Some n ->
    JS.truthy_number n = false ->
    (Z.of_nat (String.length content) <= 100000)%Z ->
    maxSize (max_bytes ctx) = JS.Finite 100000
    /\ run (execute parse stringify mcp ctx)
       = (Returned (retrieved uri server info content false false),
          [CallGetResources; CallResourcesRead server uri]).
Proof.
  intros parse stringify mcp ctx uri resources server info res content n
    Ha Hu Hne Hr Hholder Hserver Hread Hextract Hzero Hfalsy Hshort.
  assert (Hmax : maxSize (max_bytes ctx) = JS.Finite 100000).
  { rewrite Hzero. simpl. now rewrite Hfalsy. }
  split; [exact Hmax |].
  rewrite (get_resource_read parse stringify mcp ctx uri resources
             Ha Hu Hne Hr server info res
             (scan_first_holder _ _ _ _ Hholder) Hserver Hread).
  rewrite Hextract, Hmax. simpl.
  rewrite truncate_within; [reflexivity |].
  rewrite (length_gt_integer _ _ 100000%Z) by reflexivity.
  apply Z.ltb_ge. exact Hshort.
Qed.

Lemma get_resource_zero_max_bytes_witness :
  maxSize (max_bytes (Sample.with_resource "doc://b" (Some (JS.Finite 0))))
  = JS.Finite 100000
  /\ run (execute Sample.parse Sample.stringify
            (Sample.two_servers (ResultString "hello"))
            (Sample.with_resource "doc://b" (Some (JS.Finite 0))))
     = (Returned
          (retrieved "doc://b" "B" (Sample.note "doc://b" "b") "hello"
             false false),
        [CallGetResources; CallResourcesRead "B" "doc://b"]).
Proof.
  apply (get_resource_zero_max_bytes Sample.parse Sample.stringify
           (Sample.two_servers (ResultString "hello"))
           (Sample.with_resource "doc://b" (Some (JS.Finite 0))) "doc://b"
           [ ("A", [Sample.note "doc://a" "a"]);
             ("B", [Sample.note "doc://b" "b"]) ]
           "B" (Sample.note "doc://b" "b") (ResultString "hello")
           "hello" (JS.Finite 0)).
  - reflexivity.
  - reflexivity.
  - discriminate.
  - reflexivity.
  - exists [("A", [Sample.note "doc://a" "a"])], [], [], [].
    split; [reflexivity | split; [| split; [| reflexivity]]].
    + intros s l r' [H | []] Hr'. injection H as <- <-.
      destruct Hr' as [<- | []]. discriminate.
    + intros r' [].
  - discriminate.
  - reflexivity.
  - reflexivity.
  - reflexivity.
  - reflexivity.
  - simpl. lia.
Defined.

(** C4, as amended. Content extraction of GetResource, where a part
    carries text when its [text] is not empty and carries binary content
    when it has no such text and its [blob] is not empty.
    - When [contents] is an array: if no part carries binary content, the
      content is the texts of the text-bearing parts concatenated in order
      and [isBinary] is false; if some part carries binary content, the
      content is the blob of the first such part alone (the text accumulated
      before it is dropped) and [isBinary] is true.
    - A raw string result is the content.
    - For an object whose [contents] is not an array, a non-empty [text] is
      the content; failing that a truthy [data], itself when it is a string
      and pretty-printed by [JSON.stringify] with indentation 2 otherwise;
      failing both the content is empty.
    - Binary content is returned whole whatever [max_bytes] is, with
      [truncated] false. *)
Theorem resource_content_extraction :
  forall stringify : json -> nat -> string,
    (forall items text data,
        let res := ResultObject {| r_contents := ContentsArray items;
                                   r_text := text;
                                   r_data := data |} in
        (Forall (fun item => carries_binary item = false) items ->
         extract_content stringify res = (concat_texts items, false))
        /\ (forall before item after blob,
               items = (before ++ item :: after)%list ->
               Forall (fun i => carries_binary i = false) before ->
               carries_binary item = true ->
               part_blob item = Some blob ->
               extract_content stringify res = (blob, true)))
    /\ (forall s, extract_content stringify (ResultString s) = (s, false))
    /\ (forall contents text data,
           contents = ContentsAbsent \/ contents = ContentsNotArray ->
           let res := ResultObject {| r_contents := contents;
                                      r_text := text;
                                      r_data := data |} in
           (forall t,
               text = Some t -> t <> EmptyString ->
               extract_content stringify res = (t, false))
           /\ (forall s,
                  JS.truthy_opt text = false ->
                  data = Some (JString s) -> s <> EmptyString ->
                  extract_content stringify res = (s, false))
           /\ (forall d,
                  JS.truthy_opt text = false ->
                  data = Some d -> json_truthy d = true ->
                  (forall s, d <> JString s) ->
                  extract_content stringify res = (stringify d 2, false))
           /\ (JS.truthy_opt text = false ->
               data = None
               \/ (exists d, data = Some d /\ json_truthy d = false) ->
               extract_content stringify res = (EmptyString, false)))
    /\ (forall parse mcp ctx uri resources server info res blob,
           ctx_action ctx = get_resource ->
           resource_uri ctx = Some uri ->
           uri <> EmptyString ->
           client_getResources mcp = Resolves resources ->
           first_holder resources uri server info ->
           server <> EmptyString ->
           client_resources_read mcp server uri = Resolves res ->
           extract_content stringify res = (blob, true) ->
           run (execute parse stringify mcp ctx)
           = (Returned (retrieved uri server info blob true false),
              [CallGetResources; CallResourcesRead server uri])).
Proof.
  intros stringify. split; [| split; [| split]].
  - intros items text data res. split.
    + intros Hitems. unfold res. simpl.
      now rewrite read_contents_texts.
    + intros before item after blob -> Hbefore Hitem Hblob. unfold res. simpl.
      now apply read_contents_binary.
  - reflexivity.
  - intros contents text data Hcontents res.
    assert (Hres : extract_content stringify res
                   = (read_fields stringify
                        {| r_contents := contents;
                           r_text := text;
                           r_data := data |}, false)).
    { unfold res. destruct Hcontents as [-> | ->]; reflexivity. }
    rewrite Hres. unfold read_fields. simpl.
    split; [| split; [| split]].
    + intros t -> Ht. simpl.
      apply truthy_nonempty in Ht. now rewrite Ht.
    + intros s -> -> Hs. simpl.
      apply truthy_nonempty in Hs. now rewrite Hs.
    + intros d -> -> Hd Hnot. rewrite Hd.
      destruct d; try reflexivity. exfalso. now apply (Hnot s).
    + intros -> [-> | (d & -> & Hd)]; [reflexivity | now rewrite Hd].
  - intros parse mcp ctx uri resources server info res blob
      Ha Hu Hne Hr Hholder Hserver Hread Hextract.
    rewrite (get_resource_read parse stringify mcp ctx uri resources
               Ha Hu Hne Hr server info res
               (scan_first_holder _ _ _ _ Hholder) Hserver Hread).
    rewrite Hextract. reflexivity.
Qed.

Lemma resource_content_extraction_witness :
  extract_content Sample.stringify
    (Sample.parts [ Sample.text_part "ab"; Sample.text_part "cd" ])
  = ("abcd", false)
  /\ extract_content Sample.stringify
       (Sample.parts [ Sample.text_part "ab"; Sample.blob_part "QUJD";
                       Sample.text_part "z" ])
     = ("QUJD", true)
  /\ run (execute Sample.parse Sample.stringify
            (Sample.two_servers
               (Sample.parts [ Sample.text_part "ab"; Sample.blob_part "QUJD";
                               Sample.text_part "z" ]))
            (Sample.with_resource "doc://b" (Some (JS.Finite 1))))
     = (Returned
          (retrieved "doc://b" "B" (Sample.note "doc://b" "b") "QUJD"
             true false),
        [CallGetResources; CallResourcesRead "B" "doc://b"]).
Proof.
  destruct (resource_content_extraction Sample.stringify)
    as (Harray & _ & _ & Hbinary).
  split; [| split].
  - apply (proj1 (Harray [ Sample.text_part "ab"; Sample.text_part "cd" ]
                    None None)).
    repeat constructor.
  - apply (proj2 (Harray [ Sample.text_part "ab"; Sample.blob_part "QUJD";
                           Sample.text_part "z" ] None None)
             [ Sample.text_part "ab" ] (Sample.blob_part "QUJD")
             [ Sample.text_part "z" ] "QUJD");
      try reflexivity.
    repeat constructor.
  - apply (Hbinary Sample.parse
             (Sample.two_servers
                (Sample.parts [ Sample.text_part "ab";
                                Sample.blob_part "QUJD";
                                Sample.text_part "z" ]))
             (Sample.with_resource "doc://b" (Some (JS.Finite 1))) "doc://b"
             [ ("A", [Sample.note "doc://a" "a"]);
               ("B", [Sample.note "doc://b" "b"]) ]
             "B" (Sample.note "doc://b" "b")
             (Sample.parts [ Sample.text_part "ab";
                             Sample.blob_part "QUJD";
                             Sample.text_part "z" ])
             "QUJD").
    + reflexivity.
    + reflexivity.
    + discriminate.
    + reflexivity.
    + exists [("A", [Sample.note "doc://a" "a"])], [], [], [].
      split; [reflexivity | split; [| split; [| reflexivity]]].
      * intros s l r' [H | []] Hr'. injection H as <- <-.
        destruct Hr' as [<- | []]. discriminate.
      * intros r' [].
    + discriminate.
    + reflexivity.
    + reflexivity.
Defined.

(** C4, as stated, fails: empty and falsy fields are passed over.  A part
    whose blob is the empty string does not make the result binary, an
    object whose text is the empty string yields its data, and an object
    whose data is the number 0 yields the empty content. *)
Lemma empty_fields_are_passed_over :
  extract_as_worded Sample.stringify
    (Sample.parts [ Sample.text_part "ab"; Sample.blob_part EmptyString ])
  = (EmptyString, true)
  /\ extract_content Sample.stringify
       (Sample.parts [ Sample.text_part "ab"; Sample.blob_part EmptyString ])
     = ("ab", false)
  /\ run (execute Sample.parse Sample.stringify
            (Sample.two_servers
               (Sample.parts [ Sample.text_part "ab";
                               Sample.blob_part EmptyString ]))
            (Sample.with_resource "doc://b" None))
     = (Returned
          (retrieved "doc://b" "B" (Sample.note "doc://b" "b") "ab"
             false false),
        [CallGetResources; CallResourcesRead "B" "doc://b"])
  /\ extract_as_worded Sample.stringify
       (ResultObject {| r_contents := ContentsAbsent;
                        r_text := Some EmptyString;
                        r_data := Some (JString "x") |})
     = (EmptyString, false)
  /\ extract_content Sample.stringify
       (ResultObject {| r_contents := ContentsAbsent;
                        r_text := Some EmptyString;
                        r_data := Some (JString "x") |})
     = ("x", false)
  /\ extract_as_worded Sample.stringify
       (ResultObject {| r_contents := ContentsAbsent;
                        r_text := None;
                        r_data := Some (JNumber 0) |})
     = (Sample.stringify (JNumber 0) 2, false)
  /\ extract_content Sample.stringify
       (ResultObject {| r_contents := ContentsAbsent;
                        r_text := None;
                        r_data := Some (JNumber 0) |})
     = (EmptyString, false)
  /\ Sample.stringify (JNumber 0) 2 <> EmptyString.
Proof.
  repeat split. discriminate.
Qed.

(** C5, as amended. For a non-empty [resource_uri], GetResource scans the
    servers in the iteration order of the fetched mapping and takes the
    first resource whose [uri] equals the requested one: when that resource
    sits on a server with a non-empty name, possibly after servers that lack
    the URI, the read is addressed to that server and the envelope carries
    the server and the resource; when no server holds the URI the call fails
    at the ResourceNotFound site. *)
Theorem get_resource_server_scan :
  forall parse stringify mcp ctx uri resources,
    ctx_action ctx = get_resource ->
    resource_uri ctx = Some uri ->
    uri <> EmptyString ->
    client_getResources mcp = Resolves resources ->
    (forall server r,
        first_holder resources uri server r ->
        server <> EmptyString ->
        scan_servers resources uri = (Some server, Some r)
        /\ snd (run (execute parse stringify mcp ctx))
           = [CallGetResources; CallResourcesRead server uri]
        /\ (forall res,
               client_resources_read mcp server uri = Resolves res ->
               exists content isBinary truncated,
                 fst (run (execute parse stringify mcp ctx))
                 = Returned
                     (retrieved uri server r content isBinary truncated))
        /\ (forall msg,
               client_resources_read mcp server uri = Rejects msg ->
               fst (run (execute parse stringify mcp ctx))
               = Thrown {| err_site := RemoteFailure;
                           err_message :=
                             "MCP operation failed: Failed to get MCP resource: "
                             ++ msg |}))
    /\ ((forall s l r, In (s, l) resources -> In r l -> res_uri r <> uri) ->
        run (execute parse stringify mcp ctx)
        = (Thrown {| err_site := ResourceNotFound;
                     err_message :=
                       "MCP operation failed: Failed to get MCP resource: Resource '"
                       ++ uri
                       ++ "' not found. Use list_resources to see available resources." |},
           [CallGetResources])).
Proof.
  intros parse stringify mcp ctx uri resources Ha Hu Hne Hr. split.
  - intros server r Hholder Hserver.
    pose proof (scan_first_holder _ _ _ _ Hholder) as Hscan.
    split; [exact Hscan |].
    destruct (client_resources_read mcp server uri) as [msg | res] eqn:Hread.
    + rewrite (get_resource_read_failed parse stringify mcp ctx uri resources
                 Ha Hu Hne Hr server r msg Hscan Hserver Hread).
      split; [reflexivity | split].
      * intros res H. discriminate H.
      * intros msg' H. injection H as <-. reflexivity.
    + rewrite (get_resource_read parse stringify mcp ctx uri resources
                 Ha Hu Hne Hr server r res Hscan Hserver Hread).
      split; [reflexivity | split].
      * intros res' _. do 3 eexists. reflexivity.
      * intros msg H. discriminate H.
  - intros Habsent.
    apply (get_resource_not_found parse stringify mcp ctx uri resources
             Ha Hu Hne Hr).
    now apply scan_absent.
Qed.

(** The resource sits on server [B] and is absent from server [A], which
    is scanned first. *)
Lemma get_resource_server_scan_witness :
  scan_servers
    [ ("A", [Sample.note "doc://a" "a"]); ("B", [Sample.note "doc://b" "b"]) ]
    "doc://b"
  = (Some "B", Some (Sample.note "doc://b" "b"))
  /\ snd (run (execute Sample.parse Sample.stringify
                 (Sample.two_servers (ResultString "hello"))
                 (Sample.with_resource "doc://b" None)))
     = [CallGetResources; CallResourcesRead "B" "doc://b"].
Proof.
  destruct (get_resource_server_scan Sample.parse Sample.stringify
              (Sample.two_servers (ResultString "hello"))
              (Sample.with_resource "doc://b" None) "doc://b"
              [ ("A", [Sample.note "doc://a" "a"]);
                ("B", [Sample.note "doc://b" "b"]) ])
    as [Hfound _].
  - reflexivity.
  - reflexivity.
  - discriminate.
  - reflexivity.
  - destruct (Hfound "B" (Sample.note "doc://b" "b")) as (Hscan & Htrace & _).
    + exists [("A", [Sample.note "doc://a" "a"])], [], [], [].
      split; [reflexivity | split; [| split; [| reflexivity]]].
      * intros s l r' [H | []] Hr'. injection H as <- <-.
        destruct Hr' as [<- | []]. discriminate.
      * intros r' [].
    + discriminate.
    + split; [exact Hscan | exact Htrace].
Defined.

(** C5, as stated, fails: no server of the mapping holds the empty URI,
    yet GetResource with the empty [resource_uri] does not fail at the
    ResourceNotFound site; the guard on a missing URI rejects the request
    before the mapping is fetched. *)
Lemma empty_resource_uri_not_scanned :
  (forall s l r,
      In (s, l) [ ("A", [Sample.note "doc://a" "a"]);
                  ("B", [Sample.note "doc://b" "b"]) ] ->
      In r l -> res_uri r <> EmptyString)
  /\ run (execute Sample.parse Sample.stringify
            (Sample.two_servers (ResultString "hello"))
            (Sample.with_resource EmptyString None))
     = (Thrown {| err_site := MissingParameter;
                  err_message := "MCP operation failed: Resource URI is required for get_resource action" |},
        [])
  /\ ~ (exists msg trace,
          run (execute Sample.parse Sample.stringify
                 (Sample.two_servers (ResultString "hello"))
                 (Sample.with_resource EmptyString None))
          = (Thrown {| err_site := ResourceNotFound; err_message := msg |},
             trace)).
Proof.
  split; [| split].
  - intros s l r [H | [H | []]] Hr; injection H as <- <-;
      destruct Hr as [<- | []]; discriminate.
  - reflexivity.
  - intros (msg & trace & H). discriminate H.
Qed.

(** C8. When the client has no prompts capability (no [prompts] namespace,
    or one without a callable [list]), ListPrompts returns the success
    envelope with an empty list and the message that prompts are not
    supported; no call is made and nothing is thrown. *)
Theorem list_prompts_without_capability :
  forall parse stringify mcp ctx,
    ctx_action ctx = list_prompts ->
    prompts_capability mcp = false ->
    run (execute parse stringify mcp ctx)
    = (Returned
         {| env_action := "list_prompts";
            env_data := DataPrompts [];
            env_message := "Prompts are not supported by the current MCP server configuration." |},
       []).
Proof.
  intros parse stringify mcp ctx Ha Hcap. step_dispatch. rewrite Ha.
  unfold prompts_capability in Hcap.
  destruct (client_prompts mcp) as [ns |]; [| reflexivity].
  destruct (prompts_list ns); [discriminate | reflexivity].
Qed.

Lemma list_prompts_without_capability_witness :
  prompts_capability
    {| client_getTools := Resolves [];
       client_getResources := Resolves [];
       client_resources_read := Sample.no_read;
       client_prompts := Some {| prompts_list := None;
                                 prompts_get_callable := true |} |}
  = false
  /\ run (execute Sample.parse Sample.stringify
            {| client_getTools := Resolves [];
               client_getResources := Resolves [];
               client_resources_read := Sample.no_read;
               client_prompts := Some {| prompts_list := None;
                                         prompts_get_callable := true |} |}
            (Sample.request list_prompts))
     = (Returned
          {| env_action := "list_prompts";
             env_data := DataPrompts [];
             env_message := "Prompts are not supported by the current MCP server configuration." |},
        []).
Proof.
  split; [reflexivity |].
  apply (list_prompts_without_capability Sample.parse Sample.stringify);
    reflexivity.
Defined.

(* ------------------------------------------------------------------ *)
(** * Further facts about the branches *)
(* ------------------------------------------------------------------ *)

Lemma take_length_le (n : nat) (s : string) :
  String.length (JS.take n s) <= n.
Proof.
  revert s. induction n as [| n IH]; intros s; [simpl; lia |].
  destruct s as [| ch s]; simpl; [lia |]. specialize (IH s). lia.
Qed.

Lemma clamp_index_le (len : nat) (n : JS.number) :
  JS.clamp_index len n <= len.
Proof.
  destruct n as [q | | |]; simpl; lia.
Qed.

(** What [substring] keeps is not longer than the number it was given,
    unless it keeps nothing. *)
Lemma clamp_index_within (len : nat) (n : JS.number) :
  JS.length_gt (JS.clamp_index len n) n = false \/ JS.clamp_index len n = 0.
Proof.
  destruct n as [q | | |]; simpl; auto.
  destruct (Z.le_gt_cases (Z.quot (Qnum q) (Zpos (Qden q))) 0) as [Hle | Hgt].
  - right. lia.
  - left. apply negb_false_iff. unfold Qle_bool. simpl. apply Z.leb_le.
    assert (Hnum : (0 <= Qnum q)%Z).
    { destruct (Z.le_gt_cases 0 (Qnum q)) as [H | H]; [exact H |].
      pose proof (Z.quot_opp_l (- Qnum q) (Zpos (Qden q))) as Hopp.
      rewrite Z.opp_involutive in Hopp.
      pose proof (Z.quot_pos (- Qnum q) (Zpos (Qden q))) as Hpos.
      lia. }
    pose proof (Z.mul_quot_le (Qnum q) (Zpos (Qden q)) Hnum) as Hmul.
    nia.
Qed.

Lemma truncate_flags (limit : JS.number) (content : string) (isBinary : bool) :
  (snd (truncate limit content isBinary) = true -> isBinary = false)
  /\ (isBinary = false ->
      JS.length_gt (String.length (fst (truncate limit content isBinary)))
        limit = false
      \/ String.length (fst (truncate limit content isBinary)) = 0).
Proof.
  unfold truncate. destruct isBinary; simpl.
  - split; intros H; discriminate H.
  - split; [reflexivity | intros _].
    destruct (JS.length_gt (String.length content) limit) eqn:Hgt; simpl.
    + unfold JS.substring0.
      rewrite take_length by apply clamp_index_le.
      apply clamp_index_within.
    + now left.
Qed.

(** A [catch] that re-throws with a prefix: what was thrown inside. *)
Lemma rethrow_caught {A} (m : M A) (prefix : string) (tr tr' : list event)
  (e : error) :
  try_catch m (rethrow prefix) tr = (Thrown e, tr') ->
  exists inner,
    m tr = (Thrown inner, tr')
    /\ e = {| err_site := err_site inner;
              err_message := (prefix ++ err_message inner)%string |}.
Proof.
  unfold try_catch, rethrow. destruct (m tr) as [[a | inner] tr0]; intros H.
  - discriminate H.
  - injection H as <- <-. now exists inner.
Qed.

(** A [catch] that swallows the error never throws. *)
Lemma catch_all_returns {A} (m : M A) (a : A) (tr tr' : list event)
  (e : error) :
  try_catch m (fun _ => ret a) tr = (Thrown e, tr') -> False.
Proof.
  unfold try_catch, ret. destruct (m tr) as [[v | inner] tr0]; intros H;
    discriminate H.
Qed.

(** The listing branches return. *)
Lemma listing_returns parse stringify mcp ctx :
  ctx_action ctx = list_tools \/ ctx_action ctx = list_resources
  \/ ctx_action ctx = list_prompts ->
  exists env trace,
    run (execute parse stringify mcp ctx) = (Returned env, trace).
Proof.
  intros [Ha | [Ha | Ha]];
    unfold run, execute, case_list_tools, case_list_resources,
      case_list_prompts, bind, try_catch, await, ret; rewrite Ha.
  - destruct (client_getTools mcp); simpl; do 2 eexists; reflexivity.
  - destruct (client_getResources mcp); simpl; do 2 eexists; reflexivity.
  - destruct (client_prompts mcp) as [ns |]; simpl;
      [destruct (prompts_list ns) as [[msg | prompts] |]; simpl |];
      do 2 eexists; reflexivity.
Qed.

(** Some server holds the URI: the scan stops on one that does. *)
Lemma scan_found (resources : resources_map) (uri : string) :
  (exists s l r, In (s, l) resources /\ In r l /\ res_uri r = uri) ->
  exists s l r,
    scan_servers resources uri = (Some s, Some r)
    /\ In (s, l) resources /\ In r l /\ res_uri r = uri.
Proof.
  induction resources as [| [s0 l0] rest IH]; intros (s & l & r & Hin & Hr & Hu).
  - destruct Hin.
  - simpl.
    destruct (find (fun r0 => String.eqb (res_uri r0) uri) l0) as [found |]
      eqn:Hfind.
    + exists s0, l0, found. apply find_some in Hfind as [Hf1 Hf2].
      apply String.eqb_eq in Hf2.
      split; [reflexivity | split; [now left | split; assumption]].
    + destruct Hin as [Heq | Hin].
      * injection Heq as -> ->.
        pose proof (find_none _ _ Hfind r Hr) as Hno. simpl in Hno.
        apply String.eqb_neq in Hno. now contradict Hno.
      * destruct IH as (s' & l' & r' & Hscan & Hin' & Hr' & Hu').
        { now exists s, l, r. }
        exists s', l', r'.
        split; [exact Hscan | split; [now right | split; assumption]].
Qed.

Lemma resourcesList_In (resources : resources_map) (d : resource_descriptor) :
  In d (resourcesList resources)
  <-> exists server l r,
        In (server, l) resources /\ In r l /\ d = listed_resource server r.
Proof.
  unfold resourcesList. rewrite in_flat_map. split.
  - intros ([server l] & Hin & Hd). apply in_map_iff in Hd as (r & <- & Hr).
    now exists server, l, r.
  - intros (server & l & r & Hin & Hr & ->). exists (server, l).
    split; [exact Hin |]. apply in_map_iff. now exists r.
Qed.

Lemma resourcesList_length (resources : resources_map) :
  List.length (resourcesList resources)
  = list_sum (map (fun entry => List.length (snd entry)) resources).
Proof.
  unfold resourcesList.
  induction resources as [| [server l] rest IH]; [reflexivity |].
  simpl. rewrite length_app, length_map. now rewrite IH.
Qed.

(* ------------------------------------------------------------------ *)
(** * Further properties *)
(* ------------------------------------------------------------------ *)

(** X1. The three listing actions never fail, whatever the client does:
    they return an envelope for their action after at most one call on the
    client, and when that call is rejected the list returned is empty. *)
Theorem list_actions_never_throw :
  forall parse stringify mcp ctx,
    ctx_action ctx = list_tools \/ ctx_action ctx = list_resources
    \/ ctx_action ctx = list_prompts ->
    exists env trace,
      run (execute parse stringify mcp ctx) = (Returned env, trace)
      /\ env_action env = action_name (ctx_action ctx)
      /\ List.length trace <= 1
      /\ (forall msg,
             ctx_action ctx = list_tools ->
             client_getTools mcp = Rejects msg ->
             env_data env = DataTools [])
      /\ (forall msg,
             ctx_action ctx = list_resources ->
             client_getResources mcp = Rejects msg ->
             env_data env = DataResources [])
      /\ (forall msg ns,
             ctx_action ctx = list_prompts ->
             client_prompts mcp = Some ns ->
             prompts_list ns = Some (Rejects msg) ->
             env_data env = DataPrompts []).
Proof.
  intros parse stringify mcp ctx [Ha | [Ha | Ha]];
    unfold run, execute, case_list_tools, case_list_resources,
      case_list_prompts, bind, try_catch, await, ret; rewrite Ha.
  - destruct (client_getTools mcp) as [msg | toolMap]; simpl;
      do 2 eexists; (split; [reflexivity |]); simpl;
      repeat split; auto; intros; discriminate.
  - destruct (client_getResources mcp) as [msg | resources]; simpl;
      do 2 eexists; (split; [reflexivity |]); simpl;
      repeat split; auto; intros; discriminate.
  - destruct (client_prompts mcp) as [ns |]; simpl.
    + destruct (prompts_list ns) as [[msg | prompts] |] eqn:Hlist; simpl;
        do 2 eexists; (split; [reflexivity |]); simpl;
        repeat split; auto; intros; congruence.
    + do 2 eexists. split; [reflexivity |]. simpl.
      repeat split; auto; intros; discriminate.
Qed.

Lemma list_actions_never_throw_witness :
  exists env trace,
    run (execute Sample.parse Sample.stringify
           {| client_getTools := Rejects "No servers";
              client_getResources := Resolves [];
              client_resources_read := Sample.no_read;
              client_prompts := None |}
           (Sample.request list_tools))
    = (Returned env, trace)
    /\ env_data env = DataTools [].
Proof.
  destruct (list_actions_never_throw Sample.parse Sample.stringify
              {| client_getTools := Rejects "No servers";
                 client_getResources := Resolves [];
                 client_resources_read := Sample.no_read;
                 client_prompts := None |}
              (Sample.request list_tools))
    as (env & trace & Hrun & _ & _ & Hempty & _).
  - left. reflexivity.
  - exists env, trace. split; [exact Hrun |].
    apply (Hempty "No servers"); reflexivity.
Defined.

(** X2. When the resource mapping is fetched, ListResources returns one
    descriptor for every resource of every server, tagged with that server
    and with the description defaulted, and no other descriptor; the list
    has as many elements as the servers' lists together, and the message
    states that number and the number of servers. *)
Theorem list_resources_flattens :
  forall parse stringify mcp ctx resources,
    ctx_action ctx = list_resources ->
    client_getResources mcp = Resolves resources ->
    exists listed,
      run (execute parse stringify mcp ctx)
      = (Returned
           {| env_action := "list_resources";
              env_data := DataResources listed;
              env_message :=
                "Found " ++ JS.of_nat (List.length listed)
                ++ " available MCP resources across "
                ++ JS.of_nat (List.length resources) ++ " servers" |},
         [CallGetResources])
      /\ (forall d,
             In d listed
             <-> exists server l r,
                   In (server, l) resources /\ In r l
                   /\ d = listed_resource server r)
      /\ List.length listed
         = list_sum (map (fun entry => List.length (snd entry)) resources).
Proof.
  intros parse stringify mcp ctx resources Ha Hr.
  exists (resourcesList resources). split; [| split].
  - unfold run, execute, case_list_resources, bind, try_catch, await, ret.
    rewrite Ha, Hr. simpl. unfold keys. now rewrite length_map.
  - apply resourcesList_In.
  - apply resourcesList_length.
Qed.

Lemma list_resources_flattens_witness :
  exists listed,
    run (execute Sample.parse Sample.stringify
           (Sample.two_servers ResultNullish) (Sample.request list_resources))
    = (Returned
         {| env_action := "list_resources";
            env_data := DataResources listed;
            env_message := "Found " ++ JS.of_nat (List.length listed)
                           ++ " available MCP resources across "
                           ++ JS.of_nat 2 ++ " servers" |},
       [CallGetResources])
    /\ List.length listed = 2.
Proof.
  destruct (list_resources_flattens Sample.parse Sample.stringify
              (Sample.two_servers ResultNullish)
              (Sample.request list_resources)
              [ ("A", [Sample.note "doc://a" "a"]);
                ("B", [Sample.note "doc://b" "b"]) ]
              eq_refl eq_refl)
    as (listed & Hrun & _ & Hlen).
  exists listed. split; [exact Hrun | exact Hlen].
Defined.

(** X3. Round trip of ListResources and GetResource on one client whose
    server names are all non-empty: the non-empty URI of any descriptor
    ListResources returned is resolved by GetResource, which reads it from a
    server that ListResources listed with that URI; the call can then fail
    only because the read itself is rejected. *)
Theorem listed_resource_is_found :
  forall parse stringify mcp listing env listed d ctx,
    ctx_action listing = list_resources ->
    fst (run (execute parse stringify mcp listing)) = Returned env ->
    env_data env = DataResources listed ->
    In d listed ->
    ctx_action ctx = get_resource ->
    resource_uri ctx = Some (rd_uri d) ->
    rd_uri d <> EmptyString ->
    (forall resources server l,
        client_getResources mcp = Resolves resources ->
        In (server, l) resources -> server <> EmptyString) ->
    exists server,
      snd (run (execute parse stringify mcp ctx))
      = [CallGetResources; CallResourcesRead server (rd_uri d)]
      /\ (exists d', In d' listed /\ rd_server d' = server
                     /\ rd_uri d' = rd_uri d)
      /\ (forall e,
             fst (run (execute parse stringify mcp ctx)) = Thrown e ->
             err_site e = RemoteFailure).
Proof.
  intros parse stringify mcp listing env listed d ctx
    Hl Hlist Hdata Hd Ha Hu Hne Hnames.
  destruct (client_getResources mcp) as [msg | resources] eqn:Hr.
  - revert Hlist.
    unfold run, execute, case_list_resources, bind, try_catch, await, ret.
    rewrite Hl, Hr. simpl. intros H. injection H as <-.
    simpl in Hdata. injection Hdata as <-. destruct Hd.
  - assert (listed = resourcesList resources) as ->.
    { revert Hlist.
      unfold run, execute, case_list_resources, bind, try_catch, await, ret.
      rewrite Hl, Hr. simpl. intros H. injection H as <-.
      simpl in Hdata. now injection Hdata. }
    apply resourcesList_In in Hd as (s0 & l0 & r0 & Hin0 & Hr0 & ->).
    simpl in *.
    destruct (scan_found resources (res_uri r0))
      as (server & l & r & Hscan & Hin & Hrin & Huri).
    { now exists s0, l0, r0. }
    assert (Hserver : server <> EmptyString)
      by exact (Hnames resources server l eq_refl Hin).
    exists server. split; [| split].
    + destruct (client_resources_read mcp server (res_uri r0))
        as [msg | res] eqn:Hread.
      * now rewrite (get_resource_read_failed parse stringify mcp ctx _
                       resources Ha Hu Hne Hr server r msg Hscan Hserver Hread).
      * now rewrite (get_resource_read parse stringify mcp ctx _ resources
                       Ha Hu Hne Hr server r res Hscan Hserver Hread).
    + exists (listed_resource server r). split; [| split].
      * apply resourcesList_In. now exists server, l, r.
      * reflexivity.
      * exact Huri.
    + intros e He.
      destruct (client_resources_read mcp server (res_uri r0))
        as [msg | res] eqn:Hread.
      * rewrite (get_resource_read_failed parse stringify mcp ctx _
                   resources Ha Hu Hne Hr server r msg Hscan Hserver Hread)
          in He.
        injection He as <-. reflexivity.
      * rewrite (get_resource_read parse stringify mcp ctx _ resources
                   Ha Hu Hne Hr server r res Hscan Hserver Hread) in He.
        discriminate He.
Qed.

Lemma listed_resource_is_found_witness :
  exists server,
    snd (run (execute Sample.parse Sample.stringify
                (Sample.two_servers (ResultString "hello"))
                (Sample.with_resource "doc://b" None)))
    = [CallGetResources; CallResourcesRead server "doc://b"].
Proof.
  destruct (listed_resource_is_found Sample.parse Sample.stringify
              (Sample.two_servers (ResultString "hello"))
              (Sample.request list_resources)
              {| env_action := "list_resources";
                 env_data :=
                   DataResources
                     [ listed_resource "A" (Sample.note "doc://a" "a");
                       listed_resource "B" (Sample.note "doc://b" "b") ];
                 env_message :=
                   "Found 2 available MCP resources across 2 servers" |}
              [ listed_resource "A" (Sample.note "doc://a" "a");
                listed_resource "B" (Sample.note "doc://b" "b") ]
              (listed_resource "B" (Sample.note "doc://b" "b"))
              (Sample.with_resource "doc://b" None))
    as (server & Htrace & _).
  - reflexivity.
  - reflexivity.
  - reflexivity.
  - right. left. reflexivity.
  - reflexivity.
  - reflexivity.
  - discriminate.
  - intros resources server l H Hin. injection H as <-.
    destruct Hin as [H | [H | []]]; injection H as <- _; discriminate.
  - exists server. exact Htrace.
Defined.

(** X4. A server whose name is the empty string hides its resources: when
    the scan stops on such a server, GetResource fails at the
    ResourceNotFound site without reading anything, even though the
    resource is there (and whatever later servers hold). *)
Theorem empty_server_name_hides_resource :
  forall parse stringify mcp ctx uri resources r,
    ctx_action ctx = get_resource ->
    resource_uri ctx = Some uri ->
    uri <> EmptyString ->
    client_getResources mcp = Resolves resources ->
    first_holder resources uri EmptyString r ->
    run (execute parse stringify mcp ctx)
    = (Thrown {| err_site := ResourceNotFound;
                 err_message :=
                   "MCP operation failed: Failed to get MCP resource: Resource '"
                   ++ uri
                   ++ "' not found. Use list_resources to see available resources." |},
       [CallGetResources]).
Proof.
  intros parse stringify mcp ctx uri resources r Ha Hu Hne Hr Hholder.
  pose proof (scan_first_holder _ _ _ _ Hholder) as Hscan.
  step_dispatch. rewrite Ha, Hu.
  destruct uri; [now contradict Hne |]. simpl.
  rewrite Hr. simpl. rewrite Hscan. reflexivity.
Qed.

Lemma empty_server_name_hides_resource_witness :
  run (execute Sample.parse Sample.stringify
         {| client_getTools := Resolves [];
            client_getResources :=
              Resolves [ (EmptyString, [Sample.note "doc://b" "first"]);
                         ("B", [Sample.note "doc://b" "second"]) ];
            client_resources_read := fun _ _ => Resolves (ResultString "hello");
            client_prompts := None |}
         (Sample.with_resource "doc://b" None))
  = (Thrown {| err_site := ResourceNotFound;
               err_message := "MCP operation failed: Failed to get MCP resource: Resource 'doc://b' not found. Use list_resources to see available resources." |},
     [CallGetResources]).
Proof.
  apply (empty_server_name_hides_resource Sample.parse Sample.stringify
           _ (Sample.with_resource "doc://b" None) "doc://b"
           [ (EmptyString, [Sample.note "doc://b" "first"]);
             ("B", [Sample.note "doc://b" "second"]) ]
           (Sample.note "doc://b" "first")).
  - reflexivity.
  - reflexivity.
  - discriminate.
  - reflexivity.
  - exists [], [], [], [("B", [Sample.note "doc://b" "second"])].
    split; [reflexivity | split; [| split; [| reflexivity]]].
    + intros s l r' [].
    + intros r' [].
Defined.

(** X5. With a negative [max_bytes], a textual result of any length, the
    empty one included, is cut to the empty string: the content returned is
    empty, [truncated] is true and [size] is 0. *)
Theorem get_resource_negative_max_bytes :
  forall parse stringify mcp ctx uri resources server info res content n,
    ctx_action ctx = get_resource ->
    resource_uri ctx = Some uri ->
    uri <> EmptyString ->
    client_getResources mcp = Resolves resources ->
    first_holder resources uri server info ->
    server <> EmptyString ->
    client_resources_read mcp server uri = Resolves res ->
    extract_content stringify res = (content, false) ->
    max_bytes ctx = Some n ->
    negative_number n = true ->
    run (execute parse stringify mcp ctx)
    = (Returned (retrieved uri server info EmptyString false true),
       [CallGetResources; CallResourcesRead server uri]).
Proof.
  intros parse stringify mcp ctx uri resources server info res content n
    Ha Hu Hne Hr Hholder Hserver Hread Hextract Hmax Hneg.
  rewrite (get_resource_read parse stringify mcp ctx uri resources
             Ha Hu Hne Hr server info res
             (scan_first_holder _ _ _ _ Hholder) Hserver Hread).
  rewrite Hextract, Hmax. simpl.
  assert (Hcap : (if JS.truthy_number n then n else JS.Finite 100000) = n).
  { destruct n as [q | | |]; try reflexivity; try discriminate Hneg.
    simpl in *. apply Z.ltb_lt in Hneg.
    destruct (Qeq_bool q 0) eqn:Hzero; [| reflexivity].
    apply Qeq_bool_iff in Hzero. unfold Qeq in Hzero. simpl in Hzero. lia. }
  rewrite Hcap.
  assert (Hgt : JS.length_gt (String.length content) n = true).
  { destruct n as [q | | |]; try reflexivity; try discriminate Hneg.
    simpl in *. apply Z.ltb_lt in Hneg. apply negb_true_iff.
    unfold Qle_bool. simpl. apply Z.leb_gt. nia. }
  assert (Hindex : JS.clamp_index (String.length content) n = 0).
  { destruct n as [q | | |]; try reflexivity; try discriminate Hneg.
    simpl in *. apply Z.ltb_lt in Hneg.
    pose proof (Z.quot_opp_l (- Qnum q) (Zpos (Qden q))) as Hopp.
    rewrite Z.opp_involutive in Hopp.
    pose proof (Z.quot_pos (- Qnum q) (Zpos (Qden q))) as Hpos.
    lia. }
  rewrite truncate_beyond by exact Hgt. rewrite Hindex. reflexivity.
Qed.

Lemma get_resource_negative_max_bytes_witness :
  run (execute Sample.parse Sample.stringify
         (Sample.two_servers (ResultString "hello"))
         (Sample.with_resource "doc://b" (Some (JS.Finite (-3)))))
  = (Returned
       (retrieved "doc://b" "B" (Sample.note "doc://b" "b") EmptyString
          false true),
     [CallGetResources; CallResourcesRead "B" "doc://b"]).
Proof.
  apply (get_resource_negative_max_bytes Sample.parse Sample.stringify
           (Sample.two_servers (ResultString "hello"))
           (Sample.with_resource "doc://b" (Some (JS.Finite (-3)))) "doc://b"
           [ ("A", [Sample.note "doc://a" "a"]);
             ("B", [Sample.note "doc://b" "b"]) ]
           "B" (Sample.note "doc://b" "b") (ResultString "hello")
           "hello" (JS.Finite (-3))).
  - reflexivity.
  - reflexivity.
  - discriminate.
  - reflexivity.
  - exists [("A", [Sample.note "doc://a" "a"])], [], [], [].
    split; [reflexivity | split; [| split; [| reflexivity]]].
    + intros s l r' [H | []] Hr'. injection H as <- <-.
      destruct Hr' as [<- | []]. discriminate.
    + intros r' [].
  - discriminate.
  - reflexivity.
  - reflexivity.
  - reflexivity.
  - reflexivity.
Defined.

(** X6. Every envelope GetResource returns is coherent: it is for the
    requested, non-empty URI and a server with a non-empty name, [size] is
    the length of the content returned, [truncated] is never set on binary
    content, and textual content is never longer than the cap in force
    ([max_bytes || 100000]) unless it is empty. *)
Theorem get_resource_envelope_coherent :
  forall parse stringify mcp ctx env,
    ctx_action ctx = get_resource ->
    fst (run (execute parse stringify mcp ctx)) = Returned env ->
    exists rc,
      env_data env = DataResource rc
      /\ resource_uri ctx = Some (rc_uri rc)
      /\ rc_uri rc <> EmptyString
      /\ rc_server rc <> EmptyString
      /\ rc_size rc = String.length (rc_content rc)
      /\ (rc_truncated rc = true -> rc_isBinary rc = false)
      /\ (rc_isBinary rc = false ->
          JS.length_gt (rc_size rc) (maxSize (max_bytes ctx)) = false
          \/ rc_size rc = 0).
Proof.
  intros parse stringify mcp ctx env Ha.
  destruct (resource_uri ctx) as [uri |] eqn:Hu.
  2: { step_dispatch. rewrite Ha, Hu. simpl. intros H. discriminate H. }
  destruct uri as [| ch rest] eqn:Euri.
  { step_dispatch. rewrite Ha, Hu. simpl. intros H. discriminate H. }
  rewrite <- Euri in *.
  assert (Hne : uri <> EmptyString) by (rewrite Euri; discriminate).
  destruct (client_getResources mcp) as [msg | resources] eqn:Hr.
  { step_dispatch. rewrite Ha, Hu, Euri. simpl. rewrite Hr. simpl.
    intros H. discriminate H. }
  destruct (scan_servers resources uri) as [[server |] [info |]] eqn:Hscan.
  2, 3, 4: step_dispatch; rewrite Ha, Hu, Euri; simpl; rewrite Hr; simpl;
    rewrite <- Euri, Hscan; intros H; discriminate H.
  destruct server as [| sch srest] eqn:Eserver.
  { step_dispatch. rewrite Ha, Hu, Euri. simpl. rewrite Hr. simpl.
    rewrite <- Euri, Hscan. simpl. intros H. discriminate H. }
  rewrite <- Eserver in *.
  assert (Hserver : server <> EmptyString) by (rewrite Eserver; discriminate).
  destruct (client_resources_read mcp server uri) as [msg | res] eqn:Hread.
  - rewrite (get_resource_read_failed parse stringify mcp ctx uri resources
               Ha Hu Hne Hr server info msg Hscan Hserver Hread).
    intros H. discriminate H.
  - rewrite (get_resource_read parse stringify mcp ctx uri resources
               Ha Hu Hne Hr server info res Hscan Hserver Hread).
    simpl. intros H. injection H as <-. eexists. split; [reflexivity |].
    simpl.
    destruct (truncate_flags (maxSize (max_bytes ctx))
                (fst (extract_content stringify res))
                (snd (extract_content stringify res))) as [Hflag Hbound].
    repeat split; auto.
Qed.

Lemma get_resource_envelope_coherent_witness :
  exists rc,
    env_data (retrieved "doc://b" "B" (Sample.note "doc://b" "b")
                "0123456789" false true)
    = DataResource rc
    /\ rc_size rc = 10
    /\ (JS.length_gt (rc_size rc) (maxSize (Some (JS.Finite 10))) = false
        \/ rc_size rc = 0).
Proof.
  destruct (get_resource_envelope_coherent Sample.parse Sample.stringify
              (Sample.two_servers (ResultString Sample.hundred))
              (Sample.with_resource "doc://b" (Some (JS.Finite 10)))
              (retrieved "doc://b" "B" (Sample.note "doc://b" "b")
                 "0123456789" false true)
              eq_refl eq_refl)
    as (rc & Hdata & _ & _ & _ & Hsize & _ & Hbound).
  exists rc. split; [exact Hdata | split].
  - rewrite Hsize. simpl in Hdata. injection Hdata as <-. reflexivity.
  - apply Hbound. simpl in Hdata. injection Hdata as <-. reflexivity.
Defined.

(** X7. When [tool_name] resolves to an entry with a callable [execute]
    and [tool_arguments] is a text [JSON.parse] accepts, the tool is invoked
    once, with exactly the parsed value.  What it resolves with is returned
    verbatim as [data.result], under the tool's id (its key when it has no
    id); what it rejects with comes back as an error of the
    ToolExecutionFailed site carrying the tool's message. *)
Theorem execute_tool_passes_arguments :
  forall parse stringify mcp ctx name toolMap fullKey tool run_tool text
         arguments,
    ctx_action ctx = execute_tool ->
    tool_name ctx = Some name ->
    name <> EmptyString ->
    client_getTools mcp = Resolves toolMap ->
    find (matches_tool name) toolMap = Some (fullKey, tool) ->
    execute_of tool = ExecuteFunction run_tool ->
    tool_arguments ctx = Some text ->
    text <> EmptyString ->
    parse text = Some arguments ->
    snd (run (execute parse stringify mcp ctx))
    = [CallGetTools; CallToolExecute fullKey arguments]
    /\ (forall r,
           run_tool arguments = Resolves r ->
           fst (run (execute parse stringify mcp ctx))
           = Returned
               {| env_action := "execute_tool";
                  env_data :=
                    DataExecuted (JS.or_else (id_of tool) fullKey) fullKey r;
                  env_message :=
                    "Successfully executed tool '"
                    ++ JS.or_else (id_of tool) fullKey ++ "'" |})
    /\ (forall msg,
           run_tool arguments = Rejects msg ->
           fst (run (execute parse stringify mcp ctx))
           = Thrown
               {| err_site := ToolExecutionFailed;
                  err_message :=
                    "MCP operation failed: Failed to execute MCP tool: "
                    ++ msg |}).
Proof.
  intros parse stringify mcp ctx name toolMap fullKey tool run_tool text
    arguments Ha Hn Hne Ht Hfind Hexec Hargs Htext Hparse.
  rewrite (execute_tool_called parse stringify mcp ctx name toolMap
             Ha Hn Hne Ht fullKey tool run_tool arguments Hfind Hexec).
  - split; [reflexivity | split].
    + intros r ->. reflexivity.
    + intros msg ->. reflexivity.
  - unfold parse_arguments. rewrite Hargs.
    apply truthy_nonempty in Htext. now rewrite Htext, Hparse.
Qed.

Lemma execute_tool_passes_arguments_witness :
  snd (run (execute Sample.parse Sample.stringify
              (Sample.tools_client Sample.mixed)
              (Sample.with_tool "RUBE_SEARCH_TOOLS" (Some "{}"))))
  = [CallGetTools; CallToolExecute "rube_search" (JObject [])].
Proof.
  apply (execute_tool_passes_arguments Sample.parse Sample.stringify
           (Sample.tools_client Sample.mixed)
           (Sample.with_tool "RUBE_SEARCH_TOOLS" (Some "{}"))
           "RUBE_SEARCH_TOOLS" Sample.mixed "rube_search"
           (Sample.tool (Some "RUBE_SEARCH_TOOLS") Sample.echo)
           (fun arguments => Resolves arguments) "{}" (JObject []));
    try reflexivity; discriminate.
Defined.

(** X8. Whatever the client holds and whatever the request, ExecuteTool
    makes no call at all when the tool name is missing (absent or empty):
    it fails at the MissingParameter site.  With a tool name it fetches the
    tool map first, once, and invokes at most one tool, after that fetch.  A
    tool has been invoked exactly when the call returns or fails at the
    ToolExecutionFailed site: the other failures happen before any tool
    runs. *)
Theorem execute_tool_call_sequence :
  forall parse stringify mcp ctx,
    ctx_action ctx = execute_tool ->
    (tool_name ctx = None \/ tool_name ctx = Some EmptyString ->
     run (execute parse stringify mcp ctx)
     = (Thrown {| err_site := MissingParameter;
                  err_message := "MCP operation failed: Tool name is required for execute_tool action" |},
        []))
    /\ (forall name,
           tool_name ctx = Some name ->
           name <> EmptyString ->
           (snd (run (execute parse stringify mcp ctx)) = [CallGetTools]
            /\ exists e,
                 fst (run (execute parse stringify mcp ctx)) = Thrown e
                 /\ (err_site e = RemoteFailure \/ err_site e = ToolNotFound
                     \/ err_site e = ToolNotExecutable
                     \/ err_site e = InvalidArguments))
           \/ (exists fullKey arguments,
                 snd (run (execute parse stringify mcp ctx))
                 = [CallGetTools; CallToolExecute fullKey arguments]
                 /\ ((exists env,
                        fst (run (execute parse stringify mcp ctx))
                        = Returned env)
                     \/ (exists e,
                           fst (run (execute parse stringify mcp ctx))
                           = Thrown e
                           /\ err_site e = ToolExecutionFailed)))).
Proof.
  intros parse stringify mcp ctx Ha. split.
  - intros Hmissing. step_dispatch. rewrite Ha.
    destruct Hmissing as [-> | ->]; reflexivity.
  - intros name Hn Hne.
    unfold run, execute, case_execute_tool, bind, try_catch, await, required,
      throw, rethrow, ret, parse_arguments.
    rewrite Ha, Hn.
    destruct name as [| ch rest]; [now contradict Hne |]. simpl.
    destruct (client_getTools mcp) as [msg | toolMap]; simpl.
    { left. split; [reflexivity |]. eexists. split; [reflexivity |].
      simpl. auto. }
    destruct (find (matches_tool (String ch rest)) toolMap)
      as [[fullKey tool] |]; simpl.
    2: { left. split; [reflexivity |]. eexists. split; [reflexivity |].
         simpl. auto. }
    destruct (execute_of tool) as [| | run_tool]; simpl;
      try (left; split; [reflexivity |]; eexists;
           split; [reflexivity |]; simpl; now auto).
    destruct (tool_arguments ctx) as [t |]; simpl.
    + destruct (JS.truthy t); simpl.
      * destruct (parse t) as [arguments |]; simpl.
        -- right. exists fullKey, arguments.
           destruct (run_tool arguments); simpl;
             (split; [reflexivity |]);
             [right | left]; eexists; try split; reflexivity.
        -- left. split; [reflexivity |]. eexists.
           split; [reflexivity |]. simpl. auto.
      * right. exists fullKey, (JObject []).
        destruct (run_tool (JObject [])); simpl;
          (split; [reflexivity |]);
          [right | left]; eexists; try split; reflexivity.
    + right. exists fullKey, (JObject []).
      destruct (run_tool (JObject [])); simpl;
        (split; [reflexivity |]);
        [right | left]; eexists; try split; reflexivity.
Qed.

Lemma execute_tool_call_sequence_witness :
  run (execute Sample.parse Sample.stringify
         (Sample.tools_client Sample.mixed)
         (Sample.with_tool EmptyString None))
  = (Thrown {| err_site := MissingParameter;
               err_message := "MCP operation failed: Tool name is required for execute_tool action" |},
     [])
  /\ snd (run (execute Sample.parse Sample.stringify
                 (Sample.tools_client Sample.mixed)
                 (Sample.with_tool "BROKEN" None)))
     = [CallGetTools]
  /\ exists e,
       fst (run (execute Sample.parse Sample.stringify
                   (Sample.tools_client Sample.mixed)
                   (Sample.with_tool "BROKEN" None)))
       = Thrown e
       /\ err_site e = ToolNotExecutable.
Proof.
  split.
  - apply (proj1
             (execute_tool_call_sequence Sample.parse Sample.stringify
                (Sample.tools_client Sample.mixed)
                (Sample.with_tool EmptyString None) eq_refl)).
    right. reflexivity.
  - destruct (proj2
                (execute_tool_call_sequence Sample.parse Sample.stringify
                   (Sample.tools_client Sample.mixed)
                   (Sample.with_tool "BROKEN" None) eq_refl)
                "BROKEN" eq_refl)
      as [[Htrace _] | (k & a & H & _)].
    + discriminate.
    + split; [exact Htrace |]. eexists. split; reflexivity.
    + discriminate H.
Defined.

(** X9. Every failure of the dispatcher carries its context in the
    message.  Only ExecuteTool, GetResource and GetPrompt can fail.  A
    failure is either the missing-parameter error of the action, whose
    message is the operation prefix followed by the name of the required
    field, or an error whose message starts with the operation prefix
    followed by the prefix of the action. *)
Theorem failures_carry_context :
  forall parse stringify mcp ctx e,
    fst (run (execute parse stringify mcp ctx)) = Thrown e ->
    (ctx_action ctx = execute_tool
     /\ ((err_site e = MissingParameter
          /\ err_message e
             = "MCP operation failed: Tool name is required for execute_tool action")
         \/ exists detail,
              err_message e
              = ("MCP operation failed: Failed to execute MCP tool: "
                 ++ detail)%string))
    \/ (ctx_action ctx = get_resource
        /\ ((err_site e = MissingParameter
             /\ err_message e
                = "MCP operation failed: Resource URI is required for get_resource action")
            \/ exists detail,
                 err_message e
                 = ("MCP operation failed: Failed to get MCP resource: "
                    ++ detail)%string))
    \/ (ctx_action ctx = get_prompt
        /\ ((err_site e = MissingParameter
             /\ err_message e
                = "MCP operation failed: Prompt name is required for get_prompt action")
            \/ exists detail,
                 err_message e
                 = ("MCP operation failed: Failed to get MCP prompt: "
                    ++ detail)%string)).
Proof.
  intros parse stringify mcp ctx e.
  destruct (ctx_action ctx) eqn:Ha.
  - destruct (listing_returns parse stringify mcp ctx
                (or_introl Ha)) as (env & trace & Hrun).
    rewrite Hrun. intros H. discriminate H.
  - intros H. left. split; [reflexivity |]. revert H.
    unfold run, execute. rewrite Ha.
    destruct (try_catch (case_execute_tool parse mcp ctx)
                (rethrow "MCP operation failed: ") [])
      as [[env | e'] tr] eqn:Hrun; simpl; intros H; [discriminate H |].
    injection H as ->.
    apply rethrow_caught in Hrun as (inner & Hinner & ->). simpl.
    revert Hinner. unfold case_execute_tool, bind, required, throw, ret.
    destruct (tool_name ctx) as [[| ch rest] |]; simpl.
    + intros H. injection H as <- _. left. split; reflexivity.
    + match goal with
      | |- context [try_catch ?m (rethrow ?p) []] =>
          destruct (try_catch m (rethrow p) []) as [[env | e'] tr0] eqn:Hbody
      end; intros H; [discriminate H |].
      injection H as -> _.
      apply rethrow_caught in Hbody as (inner' & _ & ->). simpl.
      right. now exists (err_message inner').
    + intros H. injection H as <- _. left. split; reflexivity.
  - destruct (listing_returns parse stringify mcp ctx
                (or_intror (or_introl Ha))) as (env & trace & Hrun).
    rewrite Hrun. intros H. discriminate H.
  - intros H. right. left. split; [reflexivity |]. revert H.
    unfold run, execute. rewrite Ha.
    destruct (try_catch (case_get_resource stringify mcp ctx)
                (rethrow "MCP operation failed: ") [])
      as [[env | e'] tr] eqn:Hrun; simpl; intros H; [discriminate H |].
    injection H as ->.
    apply rethrow_caught in Hrun as (inner & Hinner & ->). simpl.
    revert Hinner. unfold case_get_resource, bind, required, throw, ret.
    destruct (resource_uri ctx) as [[| ch rest] |]; simpl.
    + intros H. injection H as <- _. left. split; reflexivity.
    + match goal with
      | |- context [try_catch ?m (rethrow ?p) []] =>
          destruct (try_catch m (rethrow p) []) as [[env | e'] tr0] eqn:Hbody
      end; intros H; [discriminate H |].
      injection H as -> _.
      apply rethrow_caught in Hbody as (inner' & _ & ->). simpl.
      right. now exists (err_message inner').
    + intros H. injection H as <- _. left. split; reflexivity.
  - destruct (listing_returns parse stringify mcp ctx
                (or_intror (or_intror Ha))) as (env & trace & Hrun).
    rewrite Hrun. intros H. discriminate H.
  - intros H. right. right. split; [reflexivity |]. revert H.
    unfold run, execute. rewrite Ha.
    destruct (try_catch (case_get_prompt parse stringify mcp ctx)
                (rethrow "MCP operation failed: ") [])
      as [[env | e'] tr] eqn:Hrun; simpl; intros H; [discriminate H |].
    injection H as ->.
    apply rethrow_caught in Hrun as (inner & Hinner & ->). simpl.
    revert Hinner. unfold case_get_prompt, bind, required, throw, ret.
    destruct (prompt_name ctx) as [[| ch rest] |]; simpl.
    + intros H. injection H as <- _. left. split; reflexivity.
    + unfold try_catch at 1.
      match goal with
      | |- context [match ?m [] with _ => _ end] =>
          destruct (m []) as [[env | e0] tr0]
      end; [intros H; discriminate H |].
      match goal with
      | |- context [if ?c then _ else _] => destruct c
      end.
      * match goal with
        | |- context [try_catch ?m ?h tr0] =>
            destruct (try_catch m h tr0) as [[[env |] | e1] tr1] eqn:Hfall
        end; unfold rethrow; intros H; try discriminate H.
        -- injection H as <- _. simpl. right. now eexists.
        -- apply catch_all_returns in Hfall. destruct Hfall.
      * unfold rethrow. intros H. injection H as <- _. simpl.
        right. now eexists.
    + intros H. injection H as <- _. left. split; reflexivity.
Qed.

Lemma failures_carry_context_witness :
  exists detail,
    err_message
      {| err_site := ToolNotFound;
         err_message := "MCP operation failed: Failed to execute MCP tool: Tool 'nope' not found. Available tools: rube_search, plan" |}
    = ("MCP operation failed: Failed to execute MCP tool: " ++ detail)%string.
Proof.
  destruct (failures_carry_context Sample.parse Sample.stringify
              (Sample.tools_client Sample.mixed)
              (Sample.with_tool "nope" None)
              {| err_site := ToolNotFound;
                 err_message := "MCP operation failed: Failed to execute MCP tool: Tool 'nope' not found. Available tools: rube_search, plan" |}
              eq_refl)
    as [[_ [[H _] | H]] | [[H _] | [H _]]].
  - discriminate H.
  - exact H.
  - discriminate H.
  - discriminate H.
Defined.

(* ------------------------------------------------------------------ *)
(** * Prompts *)
(* ------------------------------------------------------------------ *)

Lemma find_prompt_first_holder (prompts : prompts_map) (name server : string)
  (p : prompt) :
  first_prompt_holder prompts name server p ->
  find_prompt prompts name = Some (server, p).
Proof.
  intros (before & lb & la & after & -> & Hbefore & Hlb & Hp).
  induction before as [| [s [l |]] before IH]; simpl.
  - rewrite find_first; [reflexivity | | now apply String.eqb_eq].
    apply Forall_forall. intros q Hq. apply String.eqb_neq. now apply Hlb.
  - rewrite find_absent.
    + apply IH. intros s' l' q Hin. apply (Hbefore s' l' q). now right.
    + intros q Hq. apply String.eqb_neq.
      apply (Hbefore s l q); [now left | exact Hq].
  - apply IH. intros s' l' q Hin. apply (Hbefore s' l' q). now right.
Qed.

Lemma find_prompt_absent (prompts : prompts_map) (name : string) :
  (forall s l q, In (s, Some l) prompts -> In q l ->
                 prompt_name_of q <> name) ->
  find_prompt prompts name = None.
Proof.
  induction prompts as [| [s [l |]] rest IH]; intros H; simpl.
  - reflexivity.
  - rewrite find_absent.
    + apply IH. intros s' l' q Hin. apply (H s' l' q). now right.
    + intros q Hq. apply String.eqb_neq.
      apply (H s l q); [now left | exact Hq].
  - apply IH. intros s' l' q Hin. apply (H s' l' q). now right.
Qed.

Lemma parse_arguments_parses parse field text arguments tr :
  parses_to parse text arguments ->
  parse_arguments parse field text tr = (Returned arguments, tr).
Proof.
  unfold parse_arguments.
  intros [[-> ->] | [[-> ->] | (t & -> & Ht & Hp)]]; try reflexivity.
  apply truthy_nonempty in Ht. now rewrite Ht, Hp.
Qed.

(** None of the dispatcher's own messages below holds the marker of the
    fallback. *)
Lemma unsupported_without_marker :
  JS.includes unsupported_message configuration_marker = false.
Proof. reflexivity. Qed.

Lemma invalid_prefix_without_marker (text : string) :
  JS.includes ("Invalid JSON format for prompt_arguments: " ++ text)
    configuration_marker
  = JS.includes text configuration_marker.
Proof. reflexivity. Qed.

Lemma promptsList_In (prompts : prompts_map) (d : prompt_descriptor) :
  In d (promptsList prompts)
  <-> exists server l p,
        In (server, Some l) prompts /\ In p l /\ d = listed_prompt server p.
Proof.
  unfold promptsList. rewrite in_flat_map. split.
  - intros ([server [l |]] & Hin & Hd).
    + apply in_map_iff in Hd as (p & <- & Hp). now exists server, l, p.
    + destruct Hd.
  - intros (server & l & p & Hin & Hp & ->). exists (server, Some l).
    split; [exact Hin |]. apply in_map_iff. now exists p.
Qed.

(** ** Stepping through [bind] and [try_catch] *)

Lemma bind_returned {A B} (m : M A) (k : A -> M B) (a : A)
  (tr tr' : list event) :
  m tr = (Returned a, tr') -> bind m k tr = k a tr'.
Proof. intros H. unfold bind. now rewrite H. Qed.

Lemma bind_thrown {A B} (m : M A) (k : A -> M B) (e : error)
  (tr tr' : list event) :
  m tr = (Thrown e, tr') -> bind m k tr = (Thrown e, tr').
Proof. intros H. unfold bind. now rewrite H. Qed.

Lemma try_catch_returned {A} (m : M A) (h : error -> M A) (a : A)
  (tr tr' : list event) :
  m tr = (Returned a, tr') -> try_catch m h tr = (Returned a, tr').
Proof. intros H. unfold try_catch. now rewrite H. Qed.

Lemma try_catch_thrown {A} (m : M A) (h : error -> M A) (e : error)
  (tr tr' : list event) :
  m tr = (Thrown e, tr') -> try_catch m h tr = h e tr'.
Proof. intros H. unfold try_catch. now rewrite H. Qed.

Lemma call_prompts_list_resolves mcp ns prompts tr :
  client_prompts mcp = Some ns ->
  prompts_list ns = Some (Resolves prompts) ->
  call_prompts_list mcp tr = (Returned prompts, (tr ++ [CallPromptsList])%list).
Proof.
  intros Hns Hlist. unfold call_prompts_list, await.
  now rewrite Hns, Hlist.
Qed.

Lemma promptsList_length (prompts : prompts_map) :
  List.length (promptsList prompts)
  = list_sum
      (map (fun entry : string * option (list prompt) =>
              match snd entry with
              | Some l => List.length l
              | None => 0
              end)
         prompts).
Proof.
  unfold promptsList.
  induction prompts as [| [server [l |]] rest IH]; simpl.
  - reflexivity.
  - rewrite length_app, length_map. now rewrite IH.
  - exact IH.
Qed.

Section GetPromptRuns.

Variable parse : string -> option json.
Variable stringify : json -> nat -> string.
Variable mcp : client.
Variable ctx : context.
Variable name : string.
Variable ns : prompts_namespace.

Hypothesis Haction : ctx_action ctx = get_prompt.
Hypothesis Hname : prompt_name ctx = Some name.
Hypothesis Hnonempty : name <> EmptyString.
Hypothesis Hns : client_prompts mcp = Some ns.
Hypothesis Hget : prompts_get_callable ns = true.


Lemma get_prompt_not_listed arguments prompts :
  parses_to parse (prompt_arguments ctx) arguments ->
  prompts_list ns = Some (Resolves prompts) ->
  find_prompt prompts name = None ->
  run (execute parse stringify mcp ctx)
  = (Thrown
       {| err_site := PromptNotFound;
          err_message :=
            "MCP operation failed: Failed to get MCP prompt: Prompt '"
            ++ name
            ++ "' not found. Use list_prompts to see available prompts." |},
     if JS.includes
          ("Prompt '" ++ name
           ++ "' not found. Use list_prompts to see available prompts.")
          configuration_marker
     then [CallPromptsList; CallPromptsList]
     else [CallPromptsList]).
Proof.
  intros Hargs Hlist Hfind.
  assert (Hcase :
            case_get_prompt parse stringify mcp ctx []
            = (Thrown
                 {| err_site := PromptNotFound;
                    err_message :=
                      "Failed to get MCP prompt: Prompt '" ++ name
                      ++ "' not found. Use list_prompts to see available prompts." |},
               if JS.includes
                    ("Prompt '" ++ name
                     ++ "' not found. Use list_prompts to see available prompts.")
                    configuration_marker
               then [CallPromptsList; CallPromptsList]
               else [CallPromptsList])).
  { unfold case_get_prompt.
    erewrite bind_returned;
      [| rewrite Hname; apply required_present; exact Hnonempty].
    erewrite try_catch_thrown.
    2: { rewrite Hns, Hget.
         erewrite bind_returned; [| apply parse_arguments_parses; exact Hargs].
         erewrite bind_returned;
           [| eapply call_prompts_list_resolves; eassumption].
         rewrite Hfind. reflexivity. }
    cbn [err_message]. unfold configuration_marker.
    destruct (JS.includes
                ("Prompt '" ++ name
                 ++ "' not found. Use list_prompts to see available prompts.")
                "Server configuration not found").
    - erewrite bind_returned.
      2: { apply try_catch_returned.
           erewrite bind_returned;
             [| eapply call_prompts_list_resolves; eassumption].
           rewrite Hfind. reflexivity. }
      reflexivity.
    - reflexivity. }
  unfold run, execute. rewrite Haction.
  erewrite try_catch_thrown; [| exact Hcase]. reflexivity.
Qed.

Lemma get_prompt_invalid text :
  prompt_arguments ctx = Some text ->
  text <> EmptyString ->
  parse text = None ->
  JS.includes text configuration_marker = false ->
  run (execute parse stringify mcp ctx)
  = (Thrown
       {| err_site := InvalidArguments;
          err_message :=
            "MCP operation failed: Failed to get MCP prompt: Invalid JSON format for prompt_arguments: "
            ++ text |},
     []).
Proof.
  intros Hargs Htext Hparse Hmarker.
  assert (Hcase :
            case_get_prompt parse stringify mcp ctx []
            = (Thrown
                 {| err_site := InvalidArguments;
                    err_message :=
                      "Failed to get MCP prompt: Invalid JSON format for prompt_arguments: "
                      ++ text |},
               [])).
  { unfold case_get_prompt.
    erewrite bind_returned;
      [| rewrite Hname; apply required_present; exact Hnonempty].
    erewrite try_catch_thrown.
    2: { rewrite Hns, Hget. apply bind_thrown.
         unfold parse_arguments. rewrite Hargs.
         apply truthy_nonempty in Htext. rewrite Htext, Hparse. reflexivity. }
    cbn [err_message].
    change (JS.includes
              ("Invalid JSON format for " ++ "prompt_arguments" ++ ": " ++ text)
              "Server configuration not found")
      with (JS.includes text configuration_marker).
    rewrite Hmarker. reflexivity. }
  unfold run, execute. rewrite Haction.
  erewrite try_catch_thrown; [| exact Hcase]. reflexivity.
Qed.

Lemma get_prompt_invalid_fallback text prompts server p :
  prompt_arguments ctx = Some text ->
  text <> EmptyString ->
  parse text = None ->
  JS.includes text configuration_marker = true ->
  prompts_list ns = Some (Resolves prompts) ->
  find_prompt prompts name = Some (server, p) ->
  run (execute parse stringify mcp ctx)
  = (Returned (fallback_prompt name server p), [CallPromptsList]).
Proof.
  intros Hargs Htext Hparse Hmarker Hlist Hfind.
  unfold run, execute. rewrite Haction.
  apply try_catch_returned. unfold case_get_prompt.
  erewrite bind_returned;
    [| rewrite Hname; apply required_present; exact Hnonempty].
  erewrite try_catch_thrown.
  2: { rewrite Hns, Hget. apply bind_thrown.
       unfold parse_arguments. rewrite Hargs.
       apply truthy_nonempty in Htext. rewrite Htext, Hparse. reflexivity. }
  cbn [err_message].
  change (JS.includes
            ("Invalid JSON format for " ++ "prompt_arguments" ++ ": " ++ text)
            "Server configuration not found")
    with (JS.includes text configuration_marker).
  rewrite Hmarker.
  erewrite bind_returned.
  2: { apply try_catch_returned.
       erewrite bind_returned; [| eapply call_prompts_list_resolves; eassumption].
       rewrite Hfind. reflexivity. }
  reflexivity.
Qed.

End GetPromptRuns.



(** X11. GetPrompt asks for a callable [prompts.get] although it only
    ever calls [prompts.list]: on a client without a prompts namespace, or
    with one whose [get] is not callable, it fails at the PromptsUnsupported
    site before any call, even when the listing is available and holds the
    prompt. *)
Theorem get_prompt_requires_get :
  forall parse stringify mcp ctx name,
    ctx_action ctx = get_prompt ->
    prompt_name ctx = Some name ->
    name <> EmptyString ->
    client_prompts mcp = None
    \/ (exists ns, client_prompts mcp = Some ns
                   /\ prompts_get_callable ns = false) ->
    run (execute parse stringify mcp ctx)
    = (Thrown
         {| err_site := PromptsUnsupported;
            err_message := "MCP operation failed: Failed to get MCP prompt: Prompts are not supported by the current MCP server configuration." |},
       []).
Proof.
  intros parse stringify mcp ctx name Ha Hn Hne Hcap.
  assert (Hcase :
            case_get_prompt parse stringify mcp ctx []
            = (Thrown
                 {| err_site := PromptsUnsupported;
                    err_message := "Failed to get MCP prompt: Prompts are not supported by the current MCP server configuration." |},
               [])).
  { unfold case_get_prompt.
    erewrite bind_returned;
      [| rewrite Hn; apply required_present; exact Hne].
    erewrite try_catch_thrown.
    2: { destruct Hcap as [-> | (ns & -> & ->)]; reflexivity. }
    reflexivity. }
  unfold run, execute. rewrite Ha.
  erewrite try_catch_thrown; [| exact Hcase]. reflexivity.
Qed.

Lemma get_prompt_requires_get_witness :
  find_prompt Sample.listing "summarize" = Some ("B", Sample.summarize)
  /\ run (execute Sample.parse Sample.stringify (Sample.prompts_client false)
            (Sample.with_prompt "summarize" None))
     = (Thrown
          {| err_site := PromptsUnsupported;
             err_message := "MCP operation failed: Failed to get MCP prompt: Prompts are not supported by the current MCP server configuration." |},
        []).
Proof.
  split; [reflexivity |].
  apply (get_prompt_requires_get Sample.parse Sample.stringify
           (Sample.prompts_client false)
           (Sample.with_prompt "summarize" None) "summarize").
  - reflexivity.
  - reflexivity.
  - discriminate.
  - right. eexists. split; reflexivity.
Defined.

(** X12. GetPrompt with a name no server lists fails at the
    PromptNotFound site with the name in the message.  The listing is
    fetched once; it is fetched a second time, to no avail, when the
    message happens to contain the text the fallback looks for. *)
Theorem get_prompt_unknown_name :
  forall parse stringify mcp ctx name ns arguments prompts,
    ctx_action ctx = get_prompt ->
    prompt_name ctx = Some name ->
    name <> EmptyString ->
    client_prompts mcp = Some ns ->
    prompts_get_callable ns = true ->
    parses_to parse (prompt_arguments ctx) arguments ->
    prompts_list ns = Some (Resolves prompts) ->
    (forall s l q, In (s, Some l) prompts -> In q l ->
                   prompt_name_of q <> name) ->
    run (execute parse stringify mcp ctx)
    = (Thrown
         {| err_site := PromptNotFound;
            err_message :=
              "MCP operation failed: Failed to get MCP prompt: Prompt '"
              ++ name
              ++ "' not found. Use list_prompts to see available prompts." |},
       if JS.includes
            ("Prompt '" ++ name
             ++ "' not found. Use list_prompts to see available prompts.")
            configuration_marker
       then [CallPromptsList; CallPromptsList]
       else [CallPromptsList]).
Proof.
  intros parse stringify mcp ctx name ns arguments prompts
    Ha Hn Hne Hns Hget Hargs Hlist Habsent.
  apply (get_prompt_not_listed parse stringify mcp ctx name ns
           Ha Hn Hne Hns Hget arguments prompts Hargs Hlist).
  now apply find_prompt_absent.
Qed.

Lemma get_prompt_unknown_name_witness :
  run (execute Sample.parse Sample.stringify (Sample.prompts_client true)
         (Sample.with_prompt "translate" None))
  = (Thrown
       {| err_site := PromptNotFound;
          err_message := "MCP operation failed: Failed to get MCP prompt: Prompt 'translate' not found. Use list_prompts to see available prompts." |},
     [CallPromptsList]).
Proof.
  apply (get_prompt_unknown_name Sample.parse Sample.stringify
           (Sample.prompts_client true)
           (Sample.with_prompt "translate" None) "translate"
           {| prompts_list := Some (Resolves Sample.listing);
              prompts_get_callable := true |}
           (JObject []) Sample.listing).
  - reflexivity.
  - reflexivity.
  - discriminate.
  - reflexivity.
  - reflexivity.
  - left. split; reflexivity.
  - reflexivity.
  - intros s l q [H | [H | []]] Hq; [discriminate H |].
    injection H as <- <-. destruct Hq as [<- | []]. discriminate.
Defined.

(** X13. GetPrompt with a non-empty [prompt_arguments] that [JSON.parse]
    rejects.  When the text does not contain [Server configuration not
    found], the call fails at the InvalidArguments site with the text
    echoed, before any call on the client.  When the text contains it, the
    error message contains it too, the fallback runs, and a prompt that the
    listing holds is returned with the fallback note instead of the
    failure. *)
Theorem get_prompt_invalid_arguments :
  forall parse stringify mcp ctx name ns text,
    ctx_action ctx = get_prompt ->
    prompt_name ctx = Some name ->
    name <> EmptyString ->
    client_prompts mcp = Some ns ->
    prompts_get_callable ns = true ->
    prompt_arguments ctx = Some text ->
    text <> EmptyString ->
    parse text = None ->
    (JS.includes text configuration_marker = false ->
     run (execute parse stringify mcp ctx)
     = (Thrown
          {| err_site := InvalidArguments;
             err_message :=
               "MCP operation failed: Failed to get MCP prompt: Invalid JSON format for prompt_arguments: "
               ++ text |},
        []))
    /\ (forall prompts server p,
           JS.includes text configuration_marker = true ->
           prompts_list ns = Some (Resolves prompts) ->
           first_prompt_holder prompts name server p ->
           run (execute parse stringify mcp ctx)
           = (Returned (fallback_prompt name server p), [CallPromptsList])).
Proof.
  intros parse stringify mcp ctx name ns text
    Ha Hn Hne Hns Hget Hargs Htext Hparse.
  split.
  - intros Hmarker.
    now apply (get_prompt_invalid parse stringify mcp ctx name ns
                 Ha Hn Hne Hns Hget text).
  - intros prompts server p Hmarker Hlist Hholder.
    apply (get_prompt_invalid_fallback parse stringify mcp ctx name ns
             Ha Hn Hne Hns Hget text prompts server p
             Hargs Htext Hparse Hmarker Hlist).
    now apply find_prompt_first_holder.
Qed.

Lemma get_prompt_invalid_arguments_witness :
  Sample.parse "Server configuration not found" = None
  /\ run (execute Sample.parse Sample.stringify (Sample.prompts_client true)
            (Sample.with_prompt "summarize"
               (Some "Server configuration not found")))
     = (Returned (fallback_prompt "summarize" "B" Sample.summarize),
        [CallPromptsList]).
Proof.
  split; [reflexivity |].
  refine (proj2
            (get_prompt_invalid_arguments Sample.parse Sample.stringify
               (Sample.prompts_client true)
               (Sample.with_prompt "summarize"
                  (Some "Server configuration not found"))
               "summarize"
               {| prompts_list := Some (Resolves Sample.listing);
                  prompts_get_callable := true |}
               "Server configuration not found"
               eq_refl eq_refl _ eq_refl eq_refl eq_refl _ eq_refl)
            Sample.listing "B" Sample.summarize eq_refl eq_refl _);
    try discriminate.
  exists [("A", None)], [], [], [].
  split; [reflexivity | split; [| split; [| reflexivity]]].
  - intros s l q [H | []]. discriminate H.
  - intros q [].
Defined.

(* ------------------------------------------------------------------ *)
(** * The calls a branch makes *)
(* ------------------------------------------------------------------ *)

Section Calls.

Context {A B : Type}.
Variable allowed : event -> bool.

Lemma calls_ret (n : nat) (a : A) : calls_within allowed n (ret a).
Proof.
  intros tr. exists []. simpl. rewrite app_nil_r.
  repeat split; [constructor | lia].
Qed.

Lemma calls_throw (n : nat) (site : failure) (msg : string) :
  calls_within allowed n (@throw A site msg).
Proof.
  intros tr. exists []. simpl. rewrite app_nil_r.
  repeat split; [constructor | lia].
Qed.

Lemma calls_rethrow (n : nat) (prefix : string) (e : error) :
  calls_within allowed n (@rethrow A prefix e).
Proof.
  intros tr. exists []. simpl. rewrite app_nil_r.
  repeat split; [constructor | lia].
Qed.

Lemma calls_await (n : nat) (call : event) (site : failure) (p : remote A) :
  allowed call = true -> 1 <= n ->
  calls_within allowed n (await call site p).
Proof.
  intros Hcall Hn tr. exists [call]. unfold await. simpl.
  repeat split; [now repeat constructor | exact Hn].
Qed.

Lemma calls_bind (n1 n2 n : nat) (m : M A) (k : A -> M B) :
  calls_within allowed n1 m ->
  (forall a, calls_within allowed n2 (k a)) ->
  n1 + n2 <= n ->
  calls_within allowed n (bind m k).
Proof.
  intros Hm Hk Hn tr. unfold bind.
  destruct (Hm tr) as (added1 & Htr1 & Hall1 & Hlen1).
  destruct (m tr) as [[a | e] tr1]; simpl in Htr1; subst tr1.
  - destruct (Hk a (tr ++ added1)%list) as (added2 & Htr2 & Hall2 & Hlen2).
    exists (added1 ++ added2)%list. rewrite Htr2, app_assoc.
    repeat split; [now apply Forall_app | rewrite length_app; lia].
  - exists added1. repeat split; [exact Hall1 | lia].
Qed.

Lemma calls_try_catch (n1 n2 n : nat) (m : M A) (h : error -> M A) :
  calls_within allowed n1 m ->
  (forall e, calls_within allowed n2 (h e)) ->
  n1 + n2 <= n ->
  calls_within allowed n (try_catch m h).
Proof.
  intros Hm Hh Hn tr. unfold try_catch.
  destruct (Hm tr) as (added1 & Htr1 & Hall1 & Hlen1).
  destruct (m tr) as [[a | e] tr1]; simpl in Htr1; subst tr1.
  - exists added1. repeat split; [exact Hall1 | lia].
  - destruct (Hh e (tr ++ added1)%list) as (added2 & Htr2 & Hall2 & Hlen2).
    exists (added1 ++ added2)%list. rewrite Htr2, app_assoc.
    repeat split; [now apply Forall_app | rewrite length_app; lia].
Qed.

End Calls.

Lemma calls_required allowed n field msg :
  calls_within allowed n (required field msg).
Proof.
  unfold required. destruct field as [s |];
    [destruct (JS.falsy s) |]; first [apply calls_throw | apply calls_ret].
Qed.

Lemma calls_parse_arguments allowed n parse field text :
  calls_within allowed n (parse_arguments parse field text).
Proof.
  unfold parse_arguments. destruct text as [t |];
    [destruct (JS.truthy t); [destruct (parse t) |] |];
    first [apply calls_throw | apply calls_ret].
Qed.

Lemma calls_prompts_list allowed n mcp :
  allowed CallPromptsList = true -> 1 <= n ->
  calls_within allowed n (call_prompts_list mcp).
Proof.
  intros Hcall Hn. unfold call_prompts_list.
  destruct (client_prompts mcp) as [ns |];
    [destruct (prompts_list ns) |];
    first [now apply calls_await | apply calls_throw].
Qed.

Lemma calls_get_prompt allowed parse stringify mcp ctx :
  allowed CallPromptsList = true ->
  calls_within allowed 2 (case_get_prompt parse stringify mcp ctx).
Proof.
  intros Hcall. unfold case_get_prompt.
  apply calls_bind with (n1 := 0) (n2 := 2);
    [apply calls_required | | lia].
  intros name.
  apply calls_try_catch with (n1 := 1) (n2 := 1); [| | lia].
  - destruct (client_prompts mcp) as [ns |]; [| apply calls_throw].
    destruct (prompts_get_callable ns); [| apply calls_throw].
    apply calls_bind with (n1 := 0) (n2 := 1);
      [apply calls_parse_arguments | | lia].
    intros parsedArgs.
    apply calls_bind with (n1 := 1) (n2 := 0);
      [now apply calls_prompts_list | | lia].
    intros prompts. destruct (find_prompt prompts name) as [[server p] |];
      first [apply calls_ret | apply calls_throw].
  - intros e.
    apply calls_bind with (n1 := 1) (n2 := 0); [| | lia].
    + destruct (JS.includes (err_message e) "Server configuration not found");
        [| apply calls_ret].
      apply calls_try_catch with (n1 := 1) (n2 := 0); [| | lia].
      * apply calls_bind with (n1 := 1) (n2 := 0);
          [now apply calls_prompts_list | | lia].
        intros prompts. destruct (find_prompt prompts name) as [[server p] |];
          apply calls_ret.
      * intros _. apply calls_ret.
    + intros [env |]; [apply calls_ret | apply calls_rethrow].
Qed.

Lemma calls_list_tools allowed mcp :
  allowed CallGetTools = true ->
  calls_within allowed 1 (case_list_tools mcp).
Proof.
  intros Hcall. unfold case_list_tools.
  apply calls_try_catch with (n1 := 1) (n2 := 0); [| | lia].
  - apply calls_bind with (n1 := 1) (n2 := 0);
      [now apply calls_await | | lia].
    intros toolMap. apply calls_ret.
  - intros _. apply calls_ret.
Qed.

Lemma calls_list_resources allowed mcp :
  allowed CallGetResources = true ->
  calls_within allowed 1 (case_list_resources mcp).
Proof.
  intros Hcall. unfold case_list_resources.
  apply calls_try_catch with (n1 := 1) (n2 := 0); [| | lia].
  - apply calls_bind with (n1 := 1) (n2 := 0);
      [now apply calls_await | | lia].
    intros resources. apply calls_ret.
  - intros _. apply calls_ret.
Qed.

Lemma calls_list_prompts allowed mcp :
  allowed CallPromptsList = true ->
  calls_within allowed 1 (case_list_prompts mcp).
Proof.
  intros Hcall. unfold case_list_prompts.
  apply calls_try_catch with (n1 := 1) (n2 := 0); [| | lia].
  - destruct (client_prompts mcp) as [ns |]; [| apply calls_ret].
    destruct (prompts_list ns) as [listing |]; [| apply calls_ret].
    apply calls_bind with (n1 := 1) (n2 := 0);
      [now apply calls_await | | lia].
    intros prompts. apply calls_ret.
  - intros _. apply calls_ret.
Qed.

Lemma calls_get_resource allowed stringify mcp ctx :
  allowed CallGetResources = true ->
  (forall server uri, allowed (CallResourcesRead server uri) = true) ->
  calls_within allowed 2 (case_get_resource stringify mcp ctx).
Proof.
  intros Hfetch Hread. unfold case_get_resource.
  apply calls_bind with (n1 := 0) (n2 := 2);
    [apply calls_required | | lia].
  intros uri.
  apply calls_try_catch with (n1 := 2) (n2 := 0);
    [| intros e; apply calls_rethrow | lia].
  apply calls_bind with (n1 := 1) (n2 := 1);
    [now apply calls_await | | lia].
  intros resources.
  destruct (scan_servers resources uri) as [[server |] [info |]];
    try apply calls_throw.
  destruct (JS.truthy server); [| apply calls_throw].
  apply calls_bind with (n1 := 1) (n2 := 0);
    [apply calls_await; [apply Hread | lia] | | lia].
  intros res. destruct (extract_content stringify res) as [content0 isBinary].
  destruct (truncate (maxSize (max_bytes ctx)) content0 isBinary).
  apply calls_ret.
Qed.

Lemma calls_execute_tool allowed parse mcp ctx :
  allowed CallGetTools = true ->
  (forall fullKey arguments,
      allowed (CallToolExecute fullKey arguments) = true) ->
  calls_within allowed 2 (case_execute_tool parse mcp ctx).
Proof.
  intros Hfetch Hrun. unfold case_execute_tool.
  apply calls_bind with (n1 := 0) (n2 := 2);
    [apply calls_required | | lia].
  intros name.
  apply calls_try_catch with (n1 := 2) (n2 := 0);
    [| intros e; apply calls_rethrow | lia].
  apply calls_bind with (n1 := 1) (n2 := 1);
    [now apply calls_await | | lia].
  intros toolMap.
  destruct (find (matches_tool name) toolMap) as [[fullKey tool] |];
    [| apply calls_throw].
  destruct (execute_of tool) as [| | run_tool]; try apply calls_throw.
  apply calls_bind with (n1 := 0) (n2 := 1);
    [apply calls_parse_arguments | | lia].
  intros parsedArguments.
  apply calls_bind with (n1 := 1) (n2 := 0);
    [apply calls_await; [apply Hrun | lia] | | lia].
  intros r. apply calls_ret.
Qed.

(** X14. Each action only makes the calls that belong to it, whatever the
    client holds and whatever the request: the listing actions make at most
    one call, their own fetch; ExecuteTool fetches the tool map and invokes
    a tool; GetResource fetches the resource mapping and reads; GetPrompt
    only lists prompts, at most twice.  In particular no tool is invoked and
    no resource is read by another action. *)
Theorem calls_belong_to_action :
  forall parse stringify mcp ctx,
    Forall (fun ev => allowed_call (ctx_action ctx) ev = true)
      (snd (run (execute parse stringify mcp ctx)))
    /\ List.length (snd (run (execute parse stringify mcp ctx)))
       <= most_calls (ctx_action ctx).
Proof.
  intros parse stringify mcp ctx.
  assert (H : calls_within (allowed_call (ctx_action ctx))
                (most_calls (ctx_action ctx))
                (execute parse stringify mcp ctx)).
  { unfold execute.
    apply calls_try_catch
      with (n1 := most_calls (ctx_action ctx)) (n2 := 0);
      [| intros e; apply calls_rethrow | lia].
    destruct (ctx_action ctx); simpl.
    - now apply calls_list_tools.
    - now apply calls_execute_tool.
    - now apply calls_list_resources.
    - now apply calls_get_resource.
    - now apply calls_list_prompts.
    - now apply calls_get_prompt. }
  destruct (H []) as (added & Htrace & Hall & Hlen).
  unfold run. rewrite Htrace. simpl. split; assumption.
Qed.

(** X15. When the client has a callable [prompts.list] and the listing is
    fetched, ListPrompts returns exactly one descriptor for every prompt of
    every server whose value is an array, tagged with that server, with the
    description and the arguments defaulted, and no other descriptor: the
    list has as many elements as those arrays together, servers whose value
    is not an array contributing nothing. *)
Theorem list_prompts_flattens :
  forall parse stringify mcp ctx ns prompts,
    ctx_action ctx = list_prompts ->
    client_prompts mcp = Some ns ->
    prompts_list ns = Some (Resolves prompts) ->
    exists listed,
      run (execute parse stringify mcp ctx)
      = (Returned
           {| env_action := "list_prompts";
              env_data := DataPrompts listed;
              env_message := "Found " ++ JS.of_nat (List.length listed)
                             ++ " available MCP prompts" |},
         [CallPromptsList])
      /\ (forall d,
             In d listed
             <-> exists server l p,
                   In (server, Some l) prompts /\ In p l
                   /\ d = listed_prompt server p)
      /\ List.length listed
         = list_sum
             (map (fun entry : string * option (list prompt) =>
                     match snd entry with
                     | Some l => List.length l
                     | None => 0
                     end)
                prompts)
      /\ (forall d, In d listed -> pd_description d <> EmptyString).
Proof.
  intros parse stringify mcp ctx ns prompts Ha Hns Hlist.
  exists (promptsList prompts). split; [| split; [| split]].
  - step_dispatch. rewrite Ha, Hns, Hlist. reflexivity.
  - apply promptsList_In.
  - apply promptsList_length.
  - intros d Hd. apply promptsList_In in Hd as (server & l & p & _ & _ & ->).
    simpl. unfold JS.or_else.
    destruct (prompt_description p) as [[| ch rest] |]; simpl; discriminate.
Qed.

Lemma list_prompts_flattens_witness :
  exists listed,
    run (execute Sample.parse Sample.stringify (Sample.prompts_client false)
           (Sample.request list_prompts))
    = (Returned
         {| env_action := "list_prompts";
            env_data := DataPrompts listed;
            env_message := "Found " ++ JS.of_nat (List.length listed)
                           ++ " available MCP prompts" |},
       [CallPromptsList])
    /\ In (listed_prompt "B" Sample.summarize) listed.
Proof.
  destruct (list_prompts_flattens Sample.parse Sample.stringify
              (Sample.prompts_client false) (Sample.request list_prompts)
              {| prompts_list := Some (Resolves Sample.listing);
                 prompts_get_callable := false |}
              Sample.listing eq_refl eq_refl eq_refl)
    as (listed & Hrun & Hin & _ & _).
  exists listed. split; [exact Hrun |].
  apply Hin. exists "B", [Sample.summarize], Sample.summarize.
  split; [right; left; reflexivity | split; [left |]; reflexivity].
Defined.

(* ------------------------------------------------------------------ *)
(** * Tool descriptors *)
(* ------------------------------------------------------------------ *)

(** What [split_head] returns is followed in the string by nothing or
    by the separator. *)
Lemma split_head_prefix (sep : ascii) (s : string) :
  exists rest,
    s = (JS.split_head sep s ++ rest)%string
    /\ (rest = EmptyString \/ exists tail, rest = String sep tail).
Proof.
  induction s as [| ch s (rest & IH & Hrest)]; simpl.
  - exists EmptyString. split; [reflexivity | now left].
  - destruct (Ascii.eqb_spec ch sep) as [-> | Hne].
    + exists (String sep s). split; [reflexivity |]. right. now exists s.
    + exists rest. simpl. split; [now rewrite <- IH | exact Hrest].
Qed.

Lemma split_head_without_sep (sep : ascii) (s : string) :
  ~ In sep (list_ascii_of_string (JS.split_head sep s)).
Proof.
  induction s as [| ch s IH]; simpl; [tauto |].
  destruct (Ascii.eqb_spec ch sep) as [-> | Hne]; simpl; [tauto |].
  intros [H | H]; [now apply Hne | now apply IH].
Qed.

Lemma split_head_empty (sep : ascii) (s : string) :
  JS.split_head sep s = EmptyString ->
  s = EmptyString \/ exists rest, s = String sep rest.
Proof.
  destruct s as [| ch s]; simpl; [now left |].
  destruct (Ascii.eqb_spec ch sep) as [-> | Hne]; [| discriminate].
  intros _. right. now exists s.
Qed.

Lemma toolsList_described (toolMap : tool_map) (d : tool_descriptor) :
  In d (toolsList toolMap) ->
  exists entry, In entry toolMap /\ describe_tool entry = Some d.
Proof.
  unfold toolsList.
  induction toolMap as [| entry rest IH]; simpl; [intros [] |].
  destruct (describe_tool entry) as [d0 |] eqn:Hd; simpl.
  - intros [<- | H].
    + exists entry. split; [now left | exact Hd].
    + destruct (IH H) as (e & Hin & He). exists e. split; [now right | exact He].
  - intros H. destruct (IH H) as (e & Hin & He).
    exists e. split; [now right | exact He].
Qed.

(** X16. Every descriptor ListTools returns is filled in: its server is
    not empty and holds no underscore, being either the part of the key
    before its first underscore (the key is the server followed by nothing
    or by an underscore and the rest) or, when that part is empty (the key
    is empty or starts with an underscore), the placeholder [Rube]; its
    description is not empty; its id is empty only when its key is. *)
Theorem tool_descriptors_filled_in :
  forall parse stringify mcp ctx env tools d,
    ctx_action ctx = list_tools ->
    fst (run (execute parse stringify mcp ctx)) = Returned env ->
    env_data env = DataTools tools ->
    In d tools ->
    td_server d <> EmptyString
    /\ ~ In "_"%char (list_ascii_of_string (td_server d))
    /\ ((exists rest,
            td_fullKey d = (td_server d ++ rest)%string
            /\ (rest = EmptyString
                \/ exists tail, rest = String "_"%char tail))
        \/ (td_server d = "Rube"
            /\ (td_fullKey d = EmptyString
                \/ exists rest, td_fullKey d = String "_"%char rest)))
    /\ td_description d <> EmptyString
    /\ (td_id d = EmptyString -> td_fullKey d = EmptyString).
Proof.
  intros parse stringify mcp ctx env tools d Ha Hrun Hdata Hd.
  assert (Horigin : exists toolMap, In d (toolsList toolMap)).
  { destruct (client_getTools mcp) as [msg | toolMap] eqn:Ht.
    - revert Hrun. step_dispatch. rewrite Ha, Ht. simpl.
      intros H. injection H as <-. simpl in Hdata.
      injection Hdata as <-. destruct Hd.
    - exists toolMap.
      rewrite (list_tools_run parse stringify mcp ctx toolMap Ha Ht) in Hrun.
      simpl in Hrun. injection Hrun as <-. simpl in Hdata.
      now injection Hdata as <-. }
  destruct Horigin as (toolMap & Hin).
  destruct (toolsList_described toolMap d Hin) as ([key tool] & _ & Hdesc).
  unfold describe_tool in Hdesc.
  destruct tool as [| | prim | o | o]; try discriminate Hdesc.
  destruct (is_function (tool_execute o)); [| discriminate Hdesc].
  injection Hdesc as <-. simpl.
  repeat split.
  - unfold JS.or_else. destruct (JS.split_head "_" key); simpl; discriminate.
  - unfold JS.or_else.
    destruct (JS.split_head "_" key) as [| ch rest] eqn:Hhead.
    + simpl. intros [H | [H | [H | [H | []]]]]; discriminate H.
    + change (~ In "_"%char (list_ascii_of_string (String ch rest))).
      rewrite <- Hhead. apply split_head_without_sep.
  - unfold JS.or_else.
    destruct (JS.split_head "_" key) as [| ch rest] eqn:Hhead.
    + right. split; [reflexivity |]. now apply split_head_empty.
    + left.
      change (exists rest0,
                 key = (String ch rest ++ rest0)%string
                 /\ (rest0 = EmptyString
                     \/ exists tail, rest0 = String "_"%char tail)).
      rewrite <- Hhead. apply split_head_prefix.
  - unfold JS.or_else.
    destruct (tool_description o) as [[| ch rest] |]; simpl; discriminate.
  - unfold JS.or_else.
    destruct (tool_id o) as [[| ch rest] |]; simpl; auto; discriminate.
Qed.

Lemma tool_descriptors_filled_in_witness :
  td_server
    {| td_fullKey := "plan";
       td_id := "plan";
       td_server := "plan";
       td_description := "No description available";
       td_inputSchema := None;
       td_outputSchema := None |}
  <> EmptyString.
Proof.
  refine (proj1
            (tool_descriptors_filled_in Sample.parse Sample.stringify
               (Sample.tools_client Sample.mixed) (Sample.request list_tools)
               _ _ _ eq_refl eq_refl eq_refl _)).
  right. left. reflexivity.
Defined.

(* ------------------------------------------------------------------ *)
(** * The Perplexity research tool *)
(* ------------------------------------------------------------------ *)

(** X17. Without an API key ([PERPLEXITY_API_KEY] unset or empty) the
    research tool fails with the configuration message and sends no
    request, whatever the query. *)
Theorem perplexity_requires_api_key :
  forall key fetch inp,
    key = None \/ key = Some EmptyString ->
    Perplexity.execute key fetch inp
    = (Rejects "Failed to research with Perplexity: Perplexity API key not configured. Please set PERPLEXITY_API_KEY environment variable.",
       []).
Proof.
  intros key fetch inp [-> | ->]; reflexivity.
Qed.

Lemma perplexity_requires_api_key_witness :
  Perplexity.execute (Some EmptyString)
    (fun _ => Rejects "offline")
    {| Perplexity.query := "What is MCP?"; Perplexity.model := "sonar" |}
  = (Rejects "Failed to research with Perplexity: Perplexity API key not configured. Please set PERPLEXITY_API_KEY environment variable.",
     []).
Proof.
  apply perplexity_requires_api_key. right. reflexivity.
Defined.

(** X18. With an API key the research tool sends exactly one request,
    whatever the outcome: a POST of JSON to the completion endpoint that
    carries the key as bearer token, the requested model, and the query as
    the user message after the fixed system message. *)
Theorem perplexity_single_request :
  forall key fetch inp,
    key <> EmptyString ->
    exists request,
      snd (Perplexity.execute (Some key) fetch inp) = [request]
      /\ Perplexity.req_url request
         = "https://api.perplexity.ai/chat/completions"
      /\ Perplexity.req_method request = "POST"
      /\ Perplexity.req_authorization request = ("Bearer " ++ key)%string
      /\ Perplexity.req_content_type request = "application/json"
      /\ Perplexity.body_model (Perplexity.req_body request)
         = Perplexity.model inp
      /\ Perplexity.body_messages (Perplexity.req_body request)
         = [ {| Perplexity.role := "system";
                Perplexity.content := "You are a helpful research assistant. Provide comprehensive, accurate, and well-sourced answers to research questions. Include relevant sources when available." |};
             {| Perplexity.role := "user";
                Perplexity.content := Perplexity.query inp |} ].
Proof.
  intros key fetch inp Hkey.
  exists (Perplexity.build_request key inp).
  split; [| repeat split].
  unfold Perplexity.execute. simpl.
  apply truthy_nonempty in Hkey. rewrite Hkey.
  destruct (fetch (Perplexity.build_request key inp)) as [msg | response];
    [reflexivity |].
  destruct (Perplexity.response_ok response).
  - destruct (Perplexity.response_json response); reflexivity.
  - destruct (Perplexity.response_text response); reflexivity.
Qed.

Lemma perplexity_single_request_witness :
  exists request,
    snd (Perplexity.execute (Some "secret") (fun _ => Rejects "offline")
           {| Perplexity.query := "What is MCP?";
              Perplexity.model := "sonar" |})
    = [request]
    /\ Perplexity.req_url request
       = "https://api.perplexity.ai/chat/completions"
    /\ Perplexity.req_method request = "POST"
    /\ Perplexity.req_authorization request = "Bearer secret"
    /\ Perplexity.req_content_type request = "application/json"
    /\ Perplexity.body_model (Perplexity.req_body request) = "sonar"
    /\ Perplexity.body_messages (Perplexity.req_body request)
       = [ {| Perplexity.role := "system";
              Perplexity.content := "You are a helpful research assistant. Provide comprehensive, accurate, and well-sourced answers to research questions. Include relevant sources when available." |};
           {| Perplexity.role := "user";
              Perplexity.content := "What is MCP?" |} ].
Proof.
  apply (perplexity_single_request "secret" (fun _ => Rejects "offline")
           {| Perplexity.query := "What is MCP?";
              Perplexity.model := "sonar" |}).
  discriminate.
Defined.

(** X19. The research tool returns an answer only when a key is
    configured, the request resolved with an OK response and its JSON body
    could be read.  The answer is then never empty: it is the content of the
    first choice, or the fixed placeholder when there is no such content;
    the sources are the citations, or none; [model_used] is the model
    requested. *)
Theorem perplexity_answer :
  forall key fetch inp out,
    fst (Perplexity.execute key fetch inp) = Resolves out ->
    exists k response data,
      key = Some k /\ k <> EmptyString
      /\ fetch (Perplexity.build_request k inp) = Resolves response
      /\ Perplexity.response_ok response = true
      /\ Perplexity.response_json response = Resolves data
      /\ Perplexity.answer out
         = JS.or_else (Perplexity.first_content data)
             "No answer received from Perplexity"
      /\ Perplexity.answer out <> EmptyString
      /\ Perplexity.sources out
         = match Perplexity.citations data with
           | Some l => l
           | None => []
           end
      /\ Perplexity.model_used out = Perplexity.model inp.
Proof.
  intros key fetch inp out. unfold Perplexity.execute, Perplexity.failed.
  destruct key as [[| ch rest] |]; simpl; try (intros H; discriminate H).
  destruct (fetch (Perplexity.build_request (String ch rest) inp))
    as [msg | response] eqn:Hfetch; simpl; [intros H; discriminate H |].
  destruct (Perplexity.response_ok response) eqn:Hok.
  - destruct (Perplexity.response_json response) as [msg | data] eqn:Hjson;
      simpl; intros H; [discriminate H |].
    injection H as <-. exists (String ch rest), response, data. simpl.
    repeat split; auto; try discriminate.
    unfold JS.or_else.
    destruct (Perplexity.first_content data) as [[| c r] |]; simpl;
      discriminate.
  - destruct (Perplexity.response_text response); simpl; intros H;
      discriminate H.
Qed.

Lemma perplexity_answer_witness :
  Perplexity.answer
    {| Perplexity.answer := "No answer received from Perplexity";
       Perplexity.sources := [];
       Perplexity.model_used := "sonar" |}
  <> EmptyString.
Proof.
  destruct (perplexity_answer (Some "secret")
              (fun _ =>
                 Resolves
                   {| Perplexity.response_ok := true;
                      Perplexity.response_status := 200;
                      Perplexity.response_text := Resolves EmptyString;
                      Perplexity.response_json :=
                        Resolves {| Perplexity.choices := Some [];
                                    Perplexity.citations := None |} |})
              {| Perplexity.query := "What is MCP?";
                 Perplexity.model := "sonar" |}
              {| Perplexity.answer := "No answer received from Perplexity";
                 Perplexity.sources := [];
                 Perplexity.model_used := "sonar" |}
              eq_refl)
    as (k & response & data & _ & _ & _ & _ & _ & _ & Hanswer & _).
  exact Hanswer.
Defined.

(** X20. Every failure of the research tool is reported with the prefix
    [Failed to research with Perplexity: ].  A response that is not OK is
    reported with its status code and its body. *)
Theorem perplexity_failures :
  forall key fetch inp,
    (forall msg,
        fst (Perplexity.execute key fetch inp) = Rejects msg ->
        exists detail,
          msg = ("Failed to research with Perplexity: " ++ detail)%string)
    /\ (forall k response errorText,
           key = Some k -> k <> EmptyString ->
           fetch (Perplexity.build_request k inp) = Resolves response ->
           Perplexity.response_ok response = false ->
           Perplexity.response_text response = Resolves errorText ->
           fst (Perplexity.execute key fetch inp)
           = Rejects
               ("Failed to research with Perplexity: Perplexity API request failed: "
                ++ JS.of_nat (Perplexity.response_status response)
                ++ " - " ++ errorText)).
Proof.
  intros key fetch inp. split.
  - intros msg. unfold Perplexity.execute, Perplexity.failed.
    destruct (JS.truthy_opt key); simpl.
    + destruct (fetch _) as [m | response]; simpl.
      * intros H. injection H as <-. now eexists.
      * destruct (Perplexity.response_ok response).
        -- destruct (Perplexity.response_json response); simpl; intros H;
             [injection H as <-; now eexists | discriminate H].
        -- destruct (Perplexity.response_text response); simpl; intros H;
             injection H as <-; now eexists.
    + intros H. injection H as <-. now eexists.
  - intros k response errorText -> Hk Hfetch Hok Htext.
    unfold Perplexity.execute, Perplexity.failed. simpl.
    apply truthy_nonempty in Hk. rewrite Hk, Hfetch, Hok, Htext.
    reflexivity.
Qed.

Lemma perplexity_failures_witness :
  fst (Perplexity.execute (Some "secret")
         (fun _ =>
            Resolves
              {| Perplexity.response_ok := false;
                 Perplexity.response_status := 401;
                 Perplexity.response_text := Resolves "Unauthorized";
                 Perplexity.response_json := Rejects "no body" |})
         {| Perplexity.query := "What is MCP?"; Perplexity.model := "sonar" |})
  = Rejects "Failed to research with Perplexity: Perplexity API request failed: 401 - Unauthorized".
Proof.
  refine (proj2
            (perplexity_failures (Some "secret")
               (fun _ =>
                  Resolves
                    {| Perplexity.response_ok := false;
                       Perplexity.response_status := 401;
                       Perplexity.response_text := Resolves "Unauthorized";
                       Perplexity.response_json := Rejects "no body" |})
               {| Perplexity.query := "What is MCP?";
                  Perplexity.model := "sonar" |})
            "secret" _ "Unauthorized" eq_refl _ eq_refl eq_refl eq_refl).
  discriminate.
Defined.
